(** * wxGtkDebugLog: the conditional debug logger of the GTK port

    A shallow embedding of [src/gtk/debughlp.cpp] (both versions of
    [wxGtkDebugLog] found in the source) together with the few C library
    calls it makes: [fopen] in append mode, [clock_gettime], [fprintf],
    [vfprintf] and [fclose].  The process and its surroundings (environment
    block, file system, real-time clock, the function-local static) are one
    explicit [world]; library calls are steps of a small state-and-failure
    monad over it and leave an [event] in the world's trace.  In a [world]
    the device of the log file takes every byte; a [machine] adds the room
    left on the device and the buffer of the stream, and the first version
    is embedded a second time on it, with the results it discards. *)

From Stdlib Require Import ZArith Ascii String DecimalString DecimalZ DecimalPos Lia.

From stdpp Require Import base option list strings gmap.

Local Open Scope Z_scope.

(** ** C data *)

(** [struct timespec]: both fields are [long] on the platforms of the GTK
    port. *)
Record timespec := Timespec { tv_sec : Z; tv_nsec : Z }.

(** An argument passed through the ellipsis of a variadic function.  No
    arithmetic is done on the numbers, so they are kept as [Z]. *)
Inductive c_arg :=
| ArgInt (n : Z)          (* int *)
| ArgLong (n : Z)         (* long *)
| ArgStr (s : string)     (* const char* *)
| ArgVaList.              (* a va_list object handed over as an argument *)

(** ** The printf family, on the conversions the logger meets *)

(** Decimal rendering of [%d] and [%ld]. *)
Definition dec (z : Z) : string := NilZero.string_of_int (Z.to_int z).

(** [vformat fmt args] is the text [vfprintf] produces.  [None] stands for
    a call this model gives no meaning to: a conversion whose argument is
    missing or of another type (undefined behaviour in C), or a conversion
    other than [%d], [%ld], [%s] and [%%], which the C library prints but
    this fragment leaves out.  [conversions] below tells the two apart: it is
    [Some] exactly for the formats of the fragment, and for these [None]
    means a missing or mistyped argument.  Arguments left over are ignored,
    as in C. *)
Fixpoint vformat (fmt : string) (args : list c_arg) : option string :=
  match fmt with
  | EmptyString => Some EmptyString
  | String c r =>
    if Ascii.eqb c "%" then
      match r with
      | EmptyString => None
      | String c1 r1 =>
        if Ascii.eqb c1 "%" then String "%"%char <$> vformat r1 args
        else if Ascii.eqb c1 "d" then
          match args with
          | ArgInt n :: args' => String.append (dec n) <$> vformat r1 args'
          | _ => None
          end
        else if Ascii.eqb c1 "s" then
          match args with
          | ArgStr s :: args' => String.append s <$> vformat r1 args'
          | _ => None
          end
        else if Ascii.eqb c1 "l" then
          match r1 with
          | EmptyString => None
          | String c2 r2 =>
            if Ascii.eqb c2 "d" then
              match args with
              | ArgLong n :: args' => String.append (dec n) <$> vformat r2 args'
              | _ => None
              end
            else None
          end
        else None
      end
    else String c <$> vformat r args
  end.

(** ** The world *)

Inductive event :=
| EvGetEnv (name : string)
| EvFopen (path mode : string) (ok : bool)
| EvClockGettime
| EvWrite (path bytes : string)
| EvFclose (path : string).

Record world := World {
  environ : gmap string string;      (* the environment block *)
  files : gmap string string;        (* path to contents, for existing files *)
  denied : gset string;              (* paths that cannot be opened for writing *)
  realtime : timespec;               (* what CLOCK_REALTIME reads now *)
  GDK_DEBUG_defined : option bool;   (* the function-local static; None before
                                        its initialisation *)
  trace : list event                 (* library calls so far, oldest first *)
}.

Definition set_environ (e : gmap string string) (w : world) : world :=
  World e (files w) (denied w) (realtime w) (GDK_DEBUG_defined w) (trace w).

Definition set_files (f : gmap string string) (w : world) : world :=
  World (environ w) f (denied w) (realtime w) (GDK_DEBUG_defined w) (trace w).

Definition set_denied (d : gset string) (w : world) : world :=
  World (environ w) (files w) d (realtime w) (GDK_DEBUG_defined w) (trace w).

Definition set_realtime (t : timespec) (w : world) : world :=
  World (environ w) (files w) (denied w) t (GDK_DEBUG_defined w) (trace w).

Definition set_static (b : option bool) (w : world) : world :=
  World (environ w) (files w) (denied w) (realtime w) b (trace w).

Definition emit (e : event) (w : world) : world :=
  World (environ w) (files w) (denied w) (realtime w) (GDK_DEBUG_defined w)
        (trace w ++ [e]).

(** ** State and failure *)

Definition M (A : Type) : Type := world -> option (A * world).

#[global] Instance M_ret : MRet M := fun A a w => Some (a, w).

#[global] Instance M_bind : MBind M := fun A B k m w =>
  match m w with
  | Some (a, w') => k a w'
  | None => None
  end.

Definition undefined {A} : M A := fun _ => None.

(** ** Library calls *)

(** Modelled from the spec: [wxGetEnv] is defined in the library's common
    utilities, outside the files at hand.  Called with a null value pointer
    it only tells whether the variable is set; the value plays no role. *)
Definition wxGetEnv (name : string) : M bool :=
  fun w => Some (bool_decide (is_Some (environ w !! name)),
                 emit (EvGetEnv name) w).

(** [fopen]: only the append mode is modelled.  The stream is named by its
    path.  A successful open creates the file when it does not exist and
    leaves existing contents alone. *)
Definition fopen (path mode : string) : M (option string) :=
  fun w =>
    if String.eqb mode "a" then
      if bool_decide (path ∈ denied w) then
        Some (None, emit (EvFopen path mode false) w)
      else
        Some (Some path,
              emit (EvFopen path mode true)
                   (set_files (<[path := default EmptyString (files w !! path)]>
                                 (files w)) w))
    else None.

Definition clock_gettime_REALTIME : M timespec :=
  fun w => Some (realtime w, emit EvClockGettime w).

(** Bytes written to a stream opened for appending go to the end of the
    file.  Buffering is not modelled: every stream here is closed before the
    function returns.  Here the device takes every byte; the buffer of the
    stream and a device that refuses bytes are modelled by [machine]
    below. *)
Definition fwrite_end (stream bytes : string) : M unit :=
  fun w =>
    Some (tt, emit (EvWrite stream bytes)
                   (set_files (<[stream := String.append
                                             (default EmptyString (files w !! stream))
                                             bytes]> (files w)) w)).

Definition vfprintf (stream fmt : string) (args : list c_arg) : M unit :=
  match vformat fmt args with
  | Some bytes => fwrite_end stream bytes
  | None => undefined
  end.

Definition fprintf := vfprintf.

Definition fclose (stream : string) : M unit :=
  fun w => Some (tt, emit (EvFclose stream) w).

(** ** The logger *)

(** [const static auto GDK_DEBUG_defined = wxGetEnv("GDK_DEBUG", nullptr);]
    the initialiser runs the first time control passes through the
    declaration, and never again. *)
Definition static_GDK_DEBUG_defined : M bool :=
  fun w =>
    match GDK_DEBUG_defined w with
    | Some b => Some (b, w)
    | None =>
      match wxGetEnv "GDK_DEBUG" w with
      | Some (b, w') => Some (b, set_static (Some b) w')
      | None => None
      end
    end.

Definition logpath : string := "/tmp/cmclient_gtk.log".

(** The arguments of one call; [va] are those passed through the ellipsis. *)
Record call := Call {
  format : string;
  function_name : string;
  line_num : Z;
  src_file : string;
  va : list c_arg
}.

(** First version in the source.  [va_start], [va_end] and the stream
    pointer have no counterpart of their own: the variadic arguments are the
    list [va c], and the stream is its path. *)
Definition wxGtkDebugLog (c : call) : M bool :=
  defined ← static_GDK_DEBUG_defined;
  if negb defined then mret false else
  logfile_ ← fopen logpath "a";
  nano_now ← clock_gettime_REALTIME;
  match logfile_ with
  | Some f =>
    fprintf f "PreciseTime:%ld,%ld. %s:%d:%s--->"
            [ArgLong (tv_sec nano_now); ArgLong (tv_nsec nano_now);
             ArgStr (src_file c); ArgInt (line_num c);
             ArgStr (function_name c)];;
    vfprintf f (format c) (va c);;
    fclose f;;
    mret true
  | None => mret false
  end.

(** Second version in the source: the fixed fields stop after the time, and
    the caller's format goes to [fprintf] with the source file, the line
    number, the function name and the [va_list] object as its arguments. *)
Definition wxGtkDebugLog_v2 (c : call) : M bool :=
  defined ← static_GDK_DEBUG_defined;
  if negb defined then mret false else
  logfile_ ← fopen logpath "a";
  nano_now ← clock_gettime_REALTIME;
  match logfile_ with
  | Some f =>
    fprintf f "PreciseTime:%ld,%ld. "
            [ArgLong (tv_sec nano_now); ArgLong (tv_nsec nano_now)];;
    fprintf f (format c)
            [ArgStr (src_file c); ArgInt (line_num c);
             ArgStr (function_name c); ArgVaList];;
    fclose f;;
    mret true
  | None => mret false
  end.

(** The statements of the first version that follow the test of the static:
    what a call does once logging is known to be enabled. *)
Definition log_record (c : call) : M bool :=
  logfile_ ← fopen logpath "a";
  nano_now ← clock_gettime_REALTIME;
  match logfile_ with
  | Some f =>
    fprintf f "PreciseTime:%ld,%ld. %s:%d:%s--->"
            [ArgLong (tv_sec nano_now); ArgLong (tv_nsec nano_now);
             ArgStr (src_file c); ArgInt (line_num c);
             ArgStr (function_name c)];;
    vfprintf f (format c) (va c);;
    fclose f;;
    mret true
  | None => mret false
  end.

(** The same statements of the second version. *)
Definition log_record_v2 (c : call) : M bool :=
  logfile_ ← fopen logpath "a";
  nano_now ← clock_gettime_REALTIME;
  match logfile_ with
  | Some f =>
    fprintf f "PreciseTime:%ld,%ld. "
            [ArgLong (tv_sec nano_now); ArgLong (tv_nsec nano_now)];;
    fprintf f (format c)
            [ArgStr (src_file c); ArgInt (line_num c);
             ArgStr (function_name c); ArgVaList];;
    fclose f;;
    mret true
  | None => mret false
  end.

(** Contents of the log file; an absent file has no bytes. *)
Definition log_content (w : world) : string :=
  default EmptyString (files w !! logpath).

(** ** The rest of the process

    Between two calls of the logger the process and its surroundings may
    change the environment block, the clock and the permissions.  None of
    these steps touches file contents or the function-local static. *)

Inductive action :=
| ACall (c : call)
| ASetenv (name value : string)
| AUnsetenv (name : string)
| AClock (t : timespec)            (* time passes, or the clock is set *)
| ADeny (path : string)
| AAllow (path : string).

Definition outside (a : action) (w : world) : world :=
  match a with
  | ACall _ => w
  | ASetenv n v => set_environ (<[n := v]> (environ w)) w
  | AUnsetenv n => set_environ (delete n (environ w)) w
  | AClock t => set_realtime t w
  | ADeny p => set_denied ({[p]} ∪ denied w) w
  | AAllow p => set_denied (denied w ∖ {[p]}) w
  end.

(** A run of the process, for either version [f] of the logger; the result
    lists what the calls returned, in order. *)
Fixpoint run (f : call -> M bool) (acts : list action) : M (list bool) :=
  match acts with
  | [] => mret []
  | ACall c :: rest => r ← f c; rs ← run f rest; mret (r :: rs)
  | a :: rest => fun w => run f rest (outside a w)
  end.

(** ** Vocabulary of the statements *)

(** Logging is enabled for the process: the static holds [true], or it is
    not initialised yet and the variable is set. *)
Definition enabled (w : world) : Prop :=
  match GDK_DEBUG_defined w with
  | Some b => b = true
  | None => is_Some (environ w !! "GDK_DEBUG")
  end.

(** The world once the declaration of the static has been passed. *)
Definition first_use (w : world) : world :=
  match GDK_DEBUG_defined w with
  | Some _ => w
  | None =>
    World (environ w) (files w) (denied w) (realtime w)
          (Some (bool_decide (is_Some (environ w !! "GDK_DEBUG"))))
          (trace w ++ [EvGetEnv "GDK_DEBUG"])
  end.

(** The fixed fields the first version writes in front of the caller's
    message. *)
Definition prefix_text (t : timespec) (c : call) : string :=
  "PreciseTime:" +:+ dec (tv_sec t) +:+ "," +:+ dec (tv_nsec t) +:+ ". " +:+
  src_file c +:+ ":" +:+ dec (line_num c) +:+ ":" +:+ function_name c +:+ "--->".

(** The fixed fields of the second version, and what it makes of the
    caller's format. *)
Definition time_text (t : timespec) : string :=
  "PreciseTime:" +:+ dec (tv_sec t) +:+ "," +:+ dec (tv_nsec t) +:+ ". ".

Definition message_v2 (c : call) : option string :=
  vformat (format c)
          [ArgStr (src_file c); ArgInt (line_num c); ArgStr (function_name c);
           ArgVaList].

(** The precondition of the logger: the caller's format has a meaning for
    the arguments that come with it. *)
Definition meaningful (a : action) : Prop :=
  match a with
  | ACall c => is_Some (vformat (format c) (va c))
  | _ => True
  end.

(** Number of calls of the logger in a run. *)
Fixpoint calls (acts : list action) : nat :=
  match acts with
  | [] => O
  | ACall _ :: rest => S (calls rest)
  | _ :: rest => calls rest
  end.

(** *** Events *)

(** The library calls a call of the logger made: the events of [w'] that
    were not yet in [w]. *)
Definition new_events (w w' : world) : list event :=
  drop (length (trace w)) (trace w').

Definition is_write (e : event) : bool :=
  match e with
  | EvWrite _ _ => true
  | _ => false
  end.

Definition is_getenv (e : event) : bool :=
  match e with
  | EvGetEnv _ => true
  | _ => false
  end.

Definition is_clock (e : event) : bool :=
  match e with
  | EvClockGettime => true
  | _ => false
  end.

Definition is_fopen (e : event) : bool :=
  match e with
  | EvFopen _ _ _ => true
  | _ => false
  end.

(** Position of the first event that satisfies [p]. *)
Fixpoint first_index (p : event -> bool) (evs : list event) : option nat :=
  match evs with
  | [] => None
  | e :: rest => if p e then Some O else S <$> first_index p rest
  end.

(** The order of the specification: the clock is read, and the file is
    opened after that. *)
Definition clock_then_open (evs : list event) : bool :=
  match first_index is_clock evs, first_index is_fopen evs with
  | Some i, Some j => (i <? j)%nat
  | _, _ => false
  end.

(** The order of the source: the file is opened, and the clock is read after
    that. *)
Definition open_then_clock (evs : list event) : bool :=
  match first_index is_fopen evs, first_index is_clock evs with
  | Some i, Some j => (i <? j)%nat
  | _, _ => false
  end.

(** *** Text *)

Definition newline : ascii := ascii_of_nat 10.

Definition is_digit (c : ascii) : bool :=
  (48 <=? nat_of_ascii c)%nat && (nat_of_ascii c <=? 57)%nat.

Definition sign_or_digit (c : ascii) : bool := Ascii.eqb c "-" || is_digit c.

Fixpoint all_chars (p : ascii -> bool) (s : string) : bool :=
  match s with
  | EmptyString => true
  | String c r => p c && all_chars p r
  end.

Fixpoint string_drop (n : nat) (s : string) : string :=
  match n, s with
  | O, _ => s
  | S n', String _ r => string_drop n' r
  | S _, EmptyString => EmptyString
  end.

Fixpoint strip_prefix (p s : string) : option string :=
  match p, s with
  | EmptyString, _ => Some s
  | String a p', String b s' => if Ascii.eqb a b then strip_prefix p' s' else None
  | String _ _, EmptyString => None
  end.

(** [span_until stop s] splits [s] in front of the first [stop]. *)
Fixpoint span_until (stop : ascii) (s : string) : string * string :=
  match s with
  | EmptyString => (EmptyString, EmptyString)
  | String c r =>
    if Ascii.eqb c stop then (EmptyString, s)
    else let (a, b) := span_until stop r in (String c a, b)
  end.

Fixpoint skip_digits (s : string) : string :=
  match s with
  | String c r => if is_digit c then skip_digits r else s
  | EmptyString => EmptyString
  end.

(** An integer: an optional sign and at least one digit. *)
Definition skip_int (s : string) : option string :=
  let s' := match s with
            | String c r => if Ascii.eqb c "-" then r else s
            | EmptyString => s
            end in
  match s' with
  | String c r => if is_digit c then Some (skip_digits r) else None
  | EmptyString => None
  end.

Fixpoint ends_with_newline (s : string) : bool :=
  match s with
  | EmptyString => false
  | String c EmptyString => Ascii.eqb c newline
  | String _ r => ends_with_newline r
  end.

Fixpoint ends_with (sfx s : string) : bool :=
  String.eqb sfx s ||
  match s with
  | EmptyString => false
  | String _ r => ends_with sfx r
  end.

(** Length of what a conversion makes of an argument. *)
Definition arg_length (a : c_arg) : nat :=
  match a with
  | ArgInt n | ArgLong n => String.length (dec n)
  | ArgStr s => String.length s
  | ArgVaList => O
  end.

Fixpoint args_length (l : list c_arg) : nat :=
  match l with
  | [] => O
  | a :: r => (arg_length a + args_length r)%nat
  end.

(** *** Records in the log file *)

(** The bytes a call added to the log file. *)
Definition appended (w w' : world) : string :=
  string_drop (String.length (log_content w)) (log_content w').

Definition parse_long (s : string) : option Z :=
  Z.of_int <$> NilZero.int_of_string s.

(** The time a record starts with: [PreciseTime:<sec>,<nsec>.] *)
Definition record_timestamp (rec : string) : option timespec :=
  match strip_prefix "PreciseTime:" rec with
  | None => None
  | Some s1 =>
    let (a, s2) := span_until "," s1 in
    match s2 with
    | EmptyString => None
    | String _ s3 =>
      let (b, s4) := span_until "." s3 in
      match s4 with
      | EmptyString => None
      | String _ _ =>
        match parse_long a, parse_long b with
        | Some sec, Some nsec => Some (Timespec sec nsec)
        | _, _ => None
        end
      end
    end
  end.

(** Order of two times: seconds first, then nanoseconds. *)
Definition ts_le (a b : timespec) : Prop :=
  tv_sec a < tv_sec b \/ (tv_sec a = tv_sec b /\ tv_nsec a <= tv_nsec b).

(** The pattern of the scenario in the specification,
    [PreciseTime:<int>,<int>. worker.c:42:DoWork---> value=7], with or
    without a line terminator behind it. *)
Definition matches_scenario_pattern (line : string) : bool :=
  match strip_prefix "PreciseTime:" line with
  | None => false
  | Some s1 =>
    match skip_int s1 with
    | None => false
    | Some s2 =>
      match strip_prefix "," s2 with
      | None => false
      | Some s3 =>
        match skip_int s3 with
        | None => false
        | Some rest =>
          String.eqb rest ". worker.c:42:DoWork---> value=7" ||
          String.eqb rest (". worker.c:42:DoWork---> value=7" +:+
                           String newline "")
        end
      end
    end
  end.

(** *** Worlds that differ in the values of variables only *)

(** Two worlds that differ at most in the values of environment
    variables: the same variables are set in both. *)
Record alike (w1 w2 : world) : Prop := Alike {
  alike_environ : forall n, is_Some (environ w1 !! n) <-> is_Some (environ w2 !! n);
  alike_files : files w1 = files w2;
  alike_denied : denied w1 = denied w2;
  alike_realtime : realtime w1 = realtime w2;
  alike_static : GDK_DEBUG_defined w1 = GDK_DEBUG_defined w2;
  alike_trace : trace w1 = trace w2
}.

(** Two steps that differ at most in the value given to a variable. *)
Inductive action_alike : action -> action -> Prop :=
| alike_same a : action_alike a a
| alike_setenv n v1 v2 : action_alike (ASetenv n v1) (ASetenv n v2).

Definition result_alike {A} (o1 o2 : option (A * world)) : Prop :=
  match o1, o2 with
  | Some (r1, w1), Some (r2, w2) => r1 = r2 /\ alike w1 w2
  | None, None => True
  | _, _ => False
  end.

(** ** Sample calls and worlds *)

(** The call of the scenario in the specification, and a call whose format
    suits both versions. *)
Definition scenario : call := Call "value=%d" "DoWork" 42 "worker.c" [ArgInt 7].

Definition pair_call : call :=
  Call "%s=%d" "DoWork" 42 "worker.c" [ArgStr "value"; ArgInt 7].

(** A fresh process with the variable set and no log file yet. *)
Definition w_demo : world :=
  World {[ "GDK_DEBUG" := "1" ]} ∅ ∅ (Timespec 1700000000 123) None [].

Definition w_value (v : string) : world :=
  World {[ "GDK_DEBUG" := v ]} ∅ ∅ (Timespec 1700000000 123) None [].

(** A fresh process without the variable. *)
Definition w_unset : world :=
  World ∅ {[ logpath := "kept" ]} ∅ (Timespec 5 0) None [].

(** The variable is set, to the empty string, and the log file cannot be
    opened for writing. *)
Definition w_readonly : world :=
  World {[ "GDK_DEBUG" := "" ]} {[ logpath := "old" ]} {[ logpath ]}
        (Timespec 9 9) None [].

(** The variable is set and the log file has contents already. *)
Definition w_logged : world :=
  World {[ "GDK_DEBUG" := "yes" ]} {[ logpath := "earlier lines" ]} ∅
        (Timespec 100 5) None [].

Definition world_after (f : M bool) (w : world) : world :=
  match f w with
  | Some (_, w') => w'
  | None => w
  end.

(** The scenario is logged; the clock then moves on by a nanosecond and the
    variable is removed; the scenario is logged again. *)
Definition w_demo_A : world := world_after (wxGtkDebugLog scenario) w_demo.

Definition w_demo_B : world :=
  outside (AUnsetenv "GDK_DEBUG")
          (outside (AClock (Timespec 1700000000 124)) w_demo_A).

Definition w_demo_B' : world := world_after (wxGtkDebugLog scenario) w_demo_B.

(** ** The call-site macro

    [DO_GTK_DEBUG_LOG(format, ...)] of [wx/gtk/private/debughlp.h] expands to
    [wxGtkDebugLog(format, __func__, __LINE__, __FILE__, __VA_ARGS__)].  The
    three predefined identifiers are what the place of the expansion makes
    them. *)
Record call_site := CallSite {
  site_func : string;     (* __func__ *)
  site_line : Z;          (* __LINE__ *)
  site_file : string      (* __FILE__ *)
}.

Definition DO_GTK_DEBUG_LOG (site : call_site) (format : string)
           (va_args : list c_arg) : M bool :=
  wxGtkDebugLog (Call format (site_func site) (site_line site) (site_file site)
                      va_args).

(** ** Further vocabulary *)

(** The caller's message and the whole record of the first version, for a
    call that meets the precondition. *)
Definition message (c : call) : string :=
  default EmptyString (vformat (format c) (va c)).

Definition record_text (t : timespec) (c : call) : string :=
  prefix_text t c +:+ message c.

(** Calls made one after the other, each at its own clock reading, and the
    records they are expected to leave. *)
Fixpoint timed_calls (l : list (timespec * call)) : list action :=
  match l with
  | [] => []
  | (t, c) :: rest => AClock t :: ACall c :: timed_calls rest
  end.

Fixpoint records (l : list (timespec * call)) : string :=
  match l with
  | [] => EmptyString
  | (t, c) :: rest => record_text t c +:+ records rest
  end.

Definition is_open_ok (e : event) : bool :=
  match e with
  | EvFopen _ _ ok => ok
  | _ => false
  end.

Definition is_fclose (e : event) : bool :=
  match e with
  | EvFclose _ => true
  | _ => false
  end.

Definition count (p : event -> bool) (evs : list event) : nat :=
  length (List.filter p evs).

(** Number of calls that returned [true]. *)
Fixpoint trues (rs : list bool) : nat :=
  match rs with
  | [] => O
  | r :: rest => ((if r then 1 else 0) + trues rest)%nat
  end.

(** An event without the bytes it carried. *)
Definition blank (e : event) : event :=
  match e with
  | EvWrite p _ => EvWrite p EmptyString
  | _ => e
  end.

(** The conversions of a format, in order; [None] where [vformat] meets a
    conversion it has no meaning for, whatever the arguments. *)
Inductive conv := ConvInt | ConvLong | ConvStr.

Fixpoint conversions (fmt : string) : option (list conv) :=
  match fmt with
  | EmptyString => Some []
  | String c r =>
    if Ascii.eqb c "%" then
      match r with
      | EmptyString => None
      | String c1 r1 =>
        if Ascii.eqb c1 "%" then conversions r1
        else if Ascii.eqb c1 "d" then cons ConvInt <$> conversions r1
        else if Ascii.eqb c1 "s" then cons ConvStr <$> conversions r1
        else if Ascii.eqb c1 "l" then
          match r1 with
          | EmptyString => None
          | String c2 r2 =>
            if Ascii.eqb c2 "d" then cons ConvLong <$> conversions r2
            else None
          end
        else None
      end
    else conversions r
  end.

Definition arg_suits (k : conv) (a : c_arg) : bool :=
  match k, a with
  | ConvInt, ArgInt _ => true
  | ConvLong, ArgLong _ => true
  | ConvStr, ArgStr _ => true
  | _, _ => false
  end.

(** Every conversion finds an argument of its type; arguments may be left
    over. *)
Fixpoint args_suit (l : list conv) (args : list c_arg) : bool :=
  match l, args with
  | [], _ => true
  | k :: l', a :: args' => arg_suits k a && args_suit l' args'
  | _ :: _, [] => false
  end.

(** The conversions of [fmt] suit the arguments [args]. *)
Definition suits (fmt : string) (args : list c_arg) : bool :=
  match conversions fmt with
  | Some l => args_suit l args
  | None => false
  end.

Definition site_demo : call_site := CallSite "DoWork" 42 "worker.c".

(** The world a run of the first version ends in. *)
Definition run_world (acts : list action) (w : world) : world :=
  match run wxGtkDebugLog acts w with
  | Some (_, w') => w'
  | None => w
  end.

(** A second file lies beside the log file. *)
Definition w_two_files : world :=
  World {[ "GDK_DEBUG" := "1" ]}
        {[ logpath := "log"; "/tmp/other.log" := "mine" ]} ∅
        (Timespec 7 0) None [].

(** The worlds the two versions leave after the same call. *)
Definition w_pair_v1 : world := world_after (wxGtkDebugLog pair_call) w_demo.
Definition w_pair_v2 : world := world_after (wxGtkDebugLog_v2 pair_call) w_demo.

(** ** A device that may refuse bytes

    So far every byte handed to the stream reaches the file.  A device can
    refuse bytes (no space left, a quota, an input/output error); [fprintf],
    [vfprintf] and [fclose] then report it in their results, which the
    function discards.  A [machine] is a world together with the room left on
    the device of the log file and the buffer of the stream: bytes written to
    the stream wait in the buffer, and closing the stream flushes it, as far
    as the device takes them. *)
Record machine := Machine {
  mworld : world;
  room : option nat;     (* bytes the device still takes; None: no limit *)
  buffer : string        (* bytes written to the stream and not yet flushed *)
}.

Definition MD (A : Type) : Type := machine -> option (A * machine).

#[global] Instance MD_ret : MRet MD := fun A a s => Some (a, s).

#[global] Instance MD_bind : MBind MD := fun A B k m s =>
  match m s with
  | Some (a, s') => k a s'
  | None => None
  end.

(** A step that concerns the world alone. *)
Definition lift {A} (m : M A) : MD A :=
  fun s =>
    match m (mworld s) with
    | Some (a, w') => Some (a, Machine w' (room s) (buffer s))
    | None => None
    end.

Fixpoint string_take (n : nat) (s : string) : string :=
  match n, s with
  | O, _ => EmptyString
  | S n', String c r => String c (string_take n' r)
  | S _, EmptyString => EmptyString
  end.

(** What the device takes of [bytes], and the room left after that. *)
Definition kept (r : option nat) (bytes : string) : string :=
  match r with
  | None => bytes
  | Some n => string_take n bytes
  end.

Definition room_after (r : option nat) (stored : string) : option nat :=
  match r with
  | None => None
  | Some n => Some (n - String.length stored)%nat
  end.

(** A stream that was just opened has an empty buffer. *)
Definition fopen_dev (path mode : string) : MD (option string) :=
  fun s =>
    match fopen path mode (mworld s) with
    | Some (Some f, w') => Some (Some f, Machine w' (room s) EmptyString)
    | Some (None, w') => Some (None, Machine w' (room s) (buffer s))
    | None => None
    end.

(** [vfprintf] puts the formatted bytes into the buffer and returns their
    number. *)
Definition vfprintf_dev (stream fmt : string) (args : list c_arg) : MD Z :=
  match vformat fmt args with
  | Some bytes =>
    fun s => Some (Z.of_nat (String.length bytes),
                   Machine (emit (EvWrite stream bytes) (mworld s)) (room s)
                           (buffer s +:+ bytes))
  | None => fun _ => None
  end.

Definition fprintf_dev := vfprintf_dev.

(** [fclose] flushes the buffer to the end of the file, as far as the device
    takes it, and returns [0], or [EOF] when bytes were refused. *)
Definition fclose_dev (stream : string) : MD Z :=
  fun s =>
    let w := mworld s in
    let stored := kept (room s) (buffer s) in
    Some ((if String.eqb stored (buffer s) then 0 else -1),
          Machine
            (emit (EvFclose stream)
                  (set_files (<[stream := String.append
                                            (default EmptyString (files w !! stream))
                                            stored]> (files w)) w))
            (room_after (room s) stored) EmptyString).

(** The first version of the source once more, on a machine.  The results
    of [fprintf], [vfprintf] and [fclose] are bound to nothing: the function
    returns [true] whatever they are. *)
Definition wxGtkDebugLog_dev (c : call) : MD bool :=
  defined ← lift static_GDK_DEBUG_defined;
  if negb defined then mret false else
  logfile_ ← fopen_dev logpath "a";
  nano_now ← lift clock_gettime_REALTIME;
  match logfile_ with
  | Some f =>
    fprintf_dev f "PreciseTime:%ld,%ld. %s:%d:%s--->"
                [ArgLong (tv_sec nano_now); ArgLong (tv_nsec nano_now);
                 ArgStr (src_file c); ArgInt (line_num c);
                 ArgStr (function_name c)];;
    vfprintf_dev f (format c) (va c);;
    fclose_dev f;;
    mret true
  | None => mret false
  end.

(** A run of the process on a machine. *)
Fixpoint run_dev (acts : list action) : MD (list bool) :=
  match acts with
  | [] => mret []
  | ACall c :: rest => r ← wxGtkDebugLog_dev c; rs ← run_dev rest; mret (r :: rs)
  | a :: rest =>
    fun s => run_dev rest (Machine (outside a (mworld s)) (room s) (buffer s))
  end.

(** The bytes handed to streams by the library calls [evs], in order. *)
Fixpoint handed (evs : list event) : string :=
  match evs with
  | [] => EmptyString
  | EvWrite _ bytes :: rest => bytes +:+ handed rest
  | _ :: rest => handed rest
  end.

(** The device has room for all of [bytes]. *)
Definition takes (r : option nat) (bytes : string) : Prop :=
  match r with
  | None => True
  | Some n => (String.length bytes <= n)%nat
  end.

(** The log file has contents and its device is full; the same with room
    for twenty bytes; the same without limit. *)
Definition m_full : machine := Machine w_logged (Some O) EmptyString.
Definition m_tight : machine := Machine w_logged (Some 20%nat) EmptyString.
Definition m_free : machine := Machine w_logged None EmptyString.

(** The statements that follow the test of the static, on a machine. *)
Definition log_record_dev (c : call) : MD bool :=
  logfile_ ← fopen_dev logpath "a";
  nano_now ← lift clock_gettime_REALTIME;
  match logfile_ with
  | Some f =>
    fprintf_dev f "PreciseTime:%ld,%ld. %s:%d:%s--->"
                [ArgLong (tv_sec nano_now); ArgLong (tv_nsec nano_now);
                 ArgStr (src_file c); ArgInt (line_num c);
                 ArgStr (function_name c)];;
    vfprintf_dev f (format c) (va c);;
    fclose_dev f;;
    mret true
  | None => mret false
  end.

(** The record of the scenario in the specification, at time [t]. *)
Definition scenario_text (t : timespec) : string :=
  "PreciseTime:" +:+ dec (tv_sec t) +:+ "," +:+ dec (tv_nsec t) +:+
  ". worker.c:42:DoWork--->value=7".

(** The machine a run ends in. *)
Definition run_dev_machine (acts : list action) (s : machine) : machine :=
  match run_dev acts s with
  | Some (_, s') => s'
  | None => s
  end.

(** * Lemmas and theorems *)

(** ** The scenario, run *)

Example scenario_runs :
  (fun r => (fst r, log_content (snd r))) <$> wxGtkDebugLog scenario w_demo =
  Some (true, "PreciseTime:1700000000,123. worker.c:42:DoWork--->value=7").
Proof. vm_compute. reflexivity. Qed.

(** ** Strings *)

Lemma app_string_cons x (a b : string) : String x a +:+ b = String x (a +:+ b).
Proof. reflexivity. Qed.

Lemma app_string_nil_l (a : string) : "" +:+ a = a.
Proof. reflexivity. Qed.

Lemma app_string_assoc (a b c : string) : (a +:+ b) +:+ c = a +:+ (b +:+ c).
Proof.
  induction a as [|x a IH]; [done |].
  rewrite !app_string_cons. by rewrite IH.
Qed.

Lemma app_string_nil_r (a : string) : a +:+ "" = a.
Proof.
  induction a as [|x a IH]; [done |].
  rewrite app_string_cons. by rewrite IH.
Qed.

Lemma app_string_length (a b : string) :
  String.length (a +:+ b) = (String.length a + String.length b)%nat.
Proof.
  induction a as [|x a IH]; [done |].
  rewrite app_string_cons. simpl. by rewrite IH.
Qed.

(** ** Equations of the library calls and of the logger *)

Lemma vformat_prefix t c :
  vformat "PreciseTime:%ld,%ld. %s:%d:%s--->"
          [ArgLong (tv_sec t); ArgLong (tv_nsec t); ArgStr (src_file c);
           ArgInt (line_num c); ArgStr (function_name c)]
  = Some (prefix_text t c).
Proof. reflexivity. Qed.

Lemma fopen_a_denied p w :
  p ∈ denied w -> fopen p "a" w = Some (None, emit (EvFopen p "a" false) w).
Proof.
  intros H. unfold fopen. cbn [String.eqb Ascii.eqb Bool.eqb].
  rewrite bool_decide_eq_true_2 by done. reflexivity.
Qed.

Lemma fopen_a_ok p w :
  p ∉ denied w ->
  fopen p "a" w =
  Some (Some p,
        emit (EvFopen p "a" true)
             (set_files (<[p := default EmptyString (files w !! p)]> (files w)) w)).
Proof.
  intros H. unfold fopen. cbn [String.eqb Ascii.eqb Bool.eqb].
  rewrite bool_decide_eq_false_2 by done. reflexivity.
Qed.

(** Worlds are taken apart before the setters are unfolded, so that every
    projection meets a constructor. *)
Ltac world_fields :=
  cbv [clock_gettime_REALTIME fwrite_end fclose mret M_ret emit set_files
       set_static set_environ set_denied set_realtime log_content
       environ files denied realtime GDK_DEBUG_defined trace].

Lemma log_record_denied c w :
  logpath ∈ denied w ->
  log_record c w =
  Some (false,
        World (environ w) (files w) (denied w) (realtime w)
              (GDK_DEBUG_defined w)
              (trace w ++ [EvFopen logpath "a" false; EvClockGettime])).
Proof.
  intros Hd. unfold log_record, mbind, M_bind.
  rewrite fopen_a_denied by done.
  destruct w as [e f d t s tr]. world_fields.
  by rewrite <- !(assoc_L (++)).
Qed.

Lemma log_record_opened c w msg :
  logpath ∉ denied w ->
  vformat (format c) (va c) = Some msg ->
  log_record c w =
  Some (true,
        World (environ w)
              (<[logpath := log_content w +:+ prefix_text (realtime w) c +:+ msg]>
                 (files w))
              (denied w) (realtime w) (GDK_DEBUG_defined w)
              (trace w ++ [EvFopen logpath "a" true; EvClockGettime;
                           EvWrite logpath (prefix_text (realtime w) c);
                           EvWrite logpath msg; EvFclose logpath])).
Proof.
  intros Hd Hm. unfold log_record, mbind, M_bind.
  rewrite fopen_a_ok by done.
  destruct w as [e f d t s tr]. world_fields.
  unfold fprintf, vfprintf. rewrite vformat_prefix, Hm. world_fields.
  rewrite !lookup_insert_eq, !insert_insert_eq.
  unfold default; cbn [from_option]; unfold id.
  rewrite app_string_assoc, <- !(assoc_L (++)). reflexivity.
Qed.

Lemma log_record_undefined c w :
  logpath ∉ denied w ->
  vformat (format c) (va c) = None ->
  log_record c w = None.
Proof.
  intros Hd Hm. unfold log_record, mbind, M_bind.
  rewrite fopen_a_ok by done.
  destruct w as [e f d t s tr]. world_fields.
  unfold fprintf, vfprintf. rewrite vformat_prefix, Hm. world_fields.
  reflexivity.
Qed.

Lemma wxGtkDebugLog_unfold c :
  wxGtkDebugLog c =
  (defined ← static_GDK_DEBUG_defined;
   if negb defined then mret false else log_record c).
Proof. reflexivity. Qed.

Lemma wxGtkDebugLog_v2_unfold c :
  wxGtkDebugLog_v2 c =
  (defined ← static_GDK_DEBUG_defined;
   if negb defined then mret false else log_record_v2 c).
Proof. reflexivity. Qed.

Lemma enabled_dec w : {enabled w} + {~ enabled w}.
Proof.
  unfold enabled. destruct (GDK_DEBUG_defined w) as [[|]|].
  - by left.
  - by right.
  - destruct (environ w !! "GDK_DEBUG"); [left; eauto | right; by intros [? ?]].
Qed.

Lemma static_enabled w :
  enabled w -> static_GDK_DEBUG_defined w = Some (true, first_use w).
Proof.
  unfold enabled, static_GDK_DEBUG_defined, first_use, wxGetEnv.
  destruct (GDK_DEBUG_defined w) as [b|]; [by intros -> |].
  intros H. by rewrite bool_decide_eq_true_2.
Qed.

Lemma static_disabled w :
  ~ enabled w -> static_GDK_DEBUG_defined w = Some (false, first_use w).
Proof.
  unfold enabled, static_GDK_DEBUG_defined, first_use, wxGetEnv.
  destruct (GDK_DEBUG_defined w) as [[|]|]; [done | done |].
  intros H. by rewrite bool_decide_eq_false_2.
Qed.

Lemma wxGtkDebugLog_enabled c w :
  enabled w -> wxGtkDebugLog c w = log_record c (first_use w).
Proof.
  intros H. rewrite wxGtkDebugLog_unfold. unfold mbind, M_bind.
  by rewrite static_enabled.
Qed.

Lemma wxGtkDebugLog_disabled c w :
  ~ enabled w -> wxGtkDebugLog c w = Some (false, first_use w).
Proof.
  intros H. rewrite wxGtkDebugLog_unfold. unfold mbind, M_bind.
  by rewrite static_disabled.
Qed.

Lemma first_use_static w :
  GDK_DEBUG_defined (first_use w) =
  Some (match GDK_DEBUG_defined w with
        | Some b => b
        | None => bool_decide (is_Some (environ w !! "GDK_DEBUG"))
        end).
Proof. unfold first_use. by destruct (GDK_DEBUG_defined w) eqn:E. Qed.

Lemma first_use_fields w :
  environ (first_use w) = environ w /\ files (first_use w) = files w /\
  denied (first_use w) = denied w /\ realtime (first_use w) = realtime w.
Proof. unfold first_use. by destruct (GDK_DEBUG_defined w). Qed.

Lemma log_record_v2_opened c w msg :
  logpath ∉ denied w ->
  message_v2 c = Some msg ->
  log_record_v2 c w =
  Some (true,
        World (environ w)
              (<[logpath := log_content w +:+ time_text (realtime w) +:+ msg]>
                 (files w))
              (denied w) (realtime w) (GDK_DEBUG_defined w)
              (trace w ++ [EvFopen logpath "a" true; EvClockGettime;
                           EvWrite logpath (time_text (realtime w));
                           EvWrite logpath msg; EvFclose logpath])).
Proof.
  intros Hd Hm. unfold log_record_v2, mbind, M_bind.
  rewrite fopen_a_ok by done.
  destruct w as [e f d t s tr]. world_fields.
  unfold message_v2 in Hm. unfold fprintf, vfprintf. rewrite Hm.
  change (vformat "PreciseTime:%ld,%ld. " [ArgLong (tv_sec t); ArgLong (tv_nsec t)])
    with (Some (time_text t)).
  world_fields.
  rewrite !lookup_insert_eq, !insert_insert_eq.
  unfold default; cbn [from_option]; unfold id.
  rewrite app_string_assoc, <- !(assoc_L (++)). reflexivity.
Qed.

Lemma wxGtkDebugLog_v2_enabled c w :
  enabled w -> wxGtkDebugLog_v2 c w = log_record_v2 c (first_use w).
Proof.
  intros H. rewrite wxGtkDebugLog_v2_unfold. unfold mbind, M_bind.
  by rewrite static_enabled.
Qed.

(** ** The scenario of the specification (C1) *)

Example pattern_accepts :
  matches_scenario_pattern "PreciseTime:1700000000,123. worker.c:42:DoWork---> value=7"
  = true.
Proof. reflexivity. Qed.

Example pattern_rejects_other_line :
  matches_scenario_pattern "PreciseTime:1700000000,123. worker.c:43:DoWork---> value=7"
  = false.
Proof. reflexivity. Qed.

(** C1, as stated, fails: in the scenario of the specification the call
    returns [true], but the bytes it appends have no blank between the arrow
    and the message, so they do not match the stated pattern. *)
Lemma scenario_pattern_counterexample :
  exists w',
    enabled w_demo /\ (logpath ∉ denied w_demo) /\
    wxGtkDebugLog scenario w_demo = Some (true, w') /\
    log_content w_demo = "" /\
    log_content w' = "PreciseTime:1700000000,123. worker.c:42:DoWork--->value=7" /\
    matches_scenario_pattern (log_content w') = false.
Proof.
  eexists. split; [by eexists |]. split; [set_solver |].
  split; [vm_compute; reflexivity |]. by vm_compute.
Qed.

(** ** Runs *)

Lemma run_call f c rest w :
  run f (ACall c :: rest) w =
  match f c w with
  | Some (r, w1) =>
    match run f rest w1 with
    | Some (rs, w2) => Some (r :: rs, w2)
    | None => None
    end
  | None => None
  end.
Proof.
  cbn [run]. unfold mbind, M_bind, mret, M_ret.
  destruct (f c w) as [[r w1]|]; [| done].
  by destruct (run f rest w1) as [[rs w2]|].
Qed.

Lemma run_outside f a rest w :
  match a with ACall _ => False | _ => True end ->
  run f (a :: rest) w = run f rest (outside a w).
Proof. by destruct a. Qed.

Lemma outside_keeps a w :
  files (outside a w) = files w /\
  GDK_DEBUG_defined (outside a w) = GDK_DEBUG_defined w /\
  trace (outside a w) = trace w.
Proof. by destruct a, w. Qed.

Lemma first_use_cached w b :
  GDK_DEBUG_defined w = Some b -> first_use w = w.
Proof. unfold first_use. by intros ->. Qed.

Lemma wxGtkDebugLog_off c w :
  GDK_DEBUG_defined w = Some false -> wxGtkDebugLog c w = Some (false, w).
Proof.
  intros H. rewrite wxGtkDebugLog_disabled.
  - by rewrite (first_use_cached w false).
  - unfold enabled. by rewrite H.
Qed.

Lemma wxGtkDebugLog_on c w :
  GDK_DEBUG_defined w = Some true -> wxGtkDebugLog c w = log_record c w.
Proof.
  intros H. rewrite wxGtkDebugLog_enabled.
  - by rewrite (first_use_cached w true).
  - unfold enabled. by rewrite H.
Qed.

Lemma run_off acts : forall w,
  GDK_DEBUG_defined w = Some false ->
  exists w',
    run wxGtkDebugLog acts w = Some (replicate (calls acts) false, w') /\
    files w' = files w /\ trace w' = trace w.
Proof.
  induction acts as [|a acts IH]; intros w Hs.
  - by exists w.
  - destruct (outside_keeps a w) as (Hf0 & Hs0 & Ht0).
    destruct a as [c| | | | |].
    1:{ rewrite run_call, wxGtkDebugLog_off by done.
        destruct (IH w Hs) as (w' & Hr & Hf & Ht). exists w'.
        by rewrite Hr. }
    all: lazymatch goal with
         | |- context [run _ (?a :: _) _] =>
           destruct (IH (outside a w)) as (w' & Hr & Hf & Ht);
             [congruence | exists w'; rewrite run_outside by done]
         end.
    all: cbn [calls]; split; [done | split; congruence].
Qed.

(** ** The variable is absent (C3) *)

(** C3: when the variable is absent at the first call of the process, that
    call and every later one return [false], whatever happens to the
    environment in between and whatever the arguments are; no file is
    created or changed, and the only library call of the whole run is the
    one lookup of the variable: no open, no clock reading, no write. *)
Theorem absent_at_first_call_no_io c acts w :
  GDK_DEBUG_defined w = None ->
  environ w !! "GDK_DEBUG" = None ->
  exists w',
    run wxGtkDebugLog (ACall c :: acts) w
      = Some (replicate (S (calls acts)) false, w') /\
    files w' = files w /\
    trace w' = trace w ++ [EvGetEnv "GDK_DEBUG"].
Proof.
  intros Hs He. rewrite run_call, wxGtkDebugLog_disabled.
  2:{ unfold enabled. rewrite Hs, He. by intros [? ?]. }
  destruct (run_off acts (first_use w)) as (w' & Hr & Hf & Ht).
  { rewrite first_use_static, Hs, He. by rewrite bool_decide_eq_false_2; [| intros [? ?]]. }
  exists w'. rewrite Hr. split; [done |].
  rewrite Hf, Ht. unfold first_use. by rewrite Hs.
Qed.

Lemma absent_at_first_call_no_io_witness :
  exists w',
    run wxGtkDebugLog
        [ACall scenario; ASetenv "GDK_DEBUG" "1"; ACall scenario; ACall scenario]
        w_unset
      = Some ([false; false; false], w') /\
    files w' = files w_unset /\
    trace w' = trace w_unset ++ [EvGetEnv "GDK_DEBUG"].
Proof.
  apply (absent_at_first_call_no_io scenario
           [ASetenv "GDK_DEBUG" "1"; ACall scenario; ACall scenario] w_unset);
    reflexivity.
Defined.

(** ** What an enabled call leaves alone *)

(** Case analysis on a call of [log_record]: the open fails, or it succeeds
    and the caller's format has a meaning, or it has none. *)
Ltac log_record_cases c w :=
  destruct (decide (logpath ∈ denied w));
  [ rewrite (log_record_denied c w) by done
  | let msg := fresh "msg" in
    let Hmsg := fresh "Hmsg" in
    destruct (vformat (format c) (va c)) as [msg|] eqn:Hmsg;
    [ rewrite (log_record_opened c w msg) by done
    | rewrite (log_record_undefined c w) by done ] ].

Lemma filter_getenv_app (l k : list event) :
  List.filter is_getenv k = [] ->
  List.filter is_getenv (l ++ k) = List.filter is_getenv l.
Proof. intros H. by rewrite List.filter_app, H, app_nil_r. Qed.

Lemma log_record_keeps c w r w' :
  log_record c w = Some (r, w') ->
  GDK_DEBUG_defined w' = GDK_DEBUG_defined w /\
  List.filter is_getenv (trace w') = List.filter is_getenv (trace w).
Proof.
  log_record_cases c w; intros [= <- <-]; cbn [GDK_DEBUG_defined trace];
    (split; [done | by apply filter_getenv_app]).
Qed.

Lemma run_on acts : forall w,
  GDK_DEBUG_defined w = Some true ->
  run wxGtkDebugLog acts w = run log_record acts w.
Proof.
  induction acts as [|a acts IH]; intros w Hs; [done |].
  destruct (outside_keeps a w) as (_ & Hs0 & _).
  destruct a as [c| | | | |].
  1:{ rewrite !run_call, wxGtkDebugLog_on by done.
      destruct (log_record c w) as [[r w1]|] eqn:E; [| done].
      apply log_record_keeps in E as [E _].
      rewrite IH by congruence. done. }
  all: rewrite !run_outside by done; apply IH; congruence.
Qed.

Lemma run_on_keeps acts : forall w rs w2,
  GDK_DEBUG_defined w = Some true ->
  run wxGtkDebugLog acts w = Some (rs, w2) ->
  GDK_DEBUG_defined w2 = Some true /\
  List.filter is_getenv (trace w2) = List.filter is_getenv (trace w).
Proof.
  induction acts as [|a acts IH]; intros w rs w2 Hs.
  - by intros [= <- <-].
  - destruct (outside_keeps a w) as (_ & Hs0 & Ht0).
    destruct a as [c| | | | |].
    1:{ rewrite run_call, wxGtkDebugLog_on by done.
        destruct (log_record c w) as [[r w1]|] eqn:E; [| done].
        apply log_record_keeps in E as [E1 E2].
        destruct (run wxGtkDebugLog acts w1) as [[rs1 w3]|] eqn:E3; [| done].
        intros [= <- <-].
        destruct (IH w1 rs1 w3) as [H1 H2]; [congruence | done |].
        split; congruence. }
    all: rewrite run_outside by done; intros Hr;
      apply IH in Hr as [H1 H2]; [| congruence];
      split; congruence.
Qed.

(** ** The static is initialised once (C2) *)

(** C2: the static is initialised by the first call and never evaluated
    again.  When the variable is present at the first call, the static holds
    [true] from then on; every later call of the process, whatever was done
    to the environment in the meantime (removing the variable included),
    does exactly what the enabled body [log_record] does; and the whole run
    contains a single lookup of the variable, the one of the first call. *)
Theorem enable_latch c acts w r w1 :
  GDK_DEBUG_defined w = None ->
  is_Some (environ w !! "GDK_DEBUG") ->
  wxGtkDebugLog c w = Some (r, w1) ->
  GDK_DEBUG_defined w1 = Some true /\
  run wxGtkDebugLog acts w1 = run log_record acts w1 /\
  forall rs w2,
    run wxGtkDebugLog acts w1 = Some (rs, w2) ->
    GDK_DEBUG_defined w2 = Some true /\
    List.filter is_getenv (trace w2) =
    List.filter is_getenv (trace w) ++ [EvGetEnv "GDK_DEBUG"].
Proof.
  intros Hs He Hc.
  rewrite wxGtkDebugLog_enabled in Hc by (unfold enabled; by rewrite Hs).
  apply log_record_keeps in Hc as [H1 H2].
  assert (Hon : GDK_DEBUG_defined w1 = Some true).
  { rewrite H1, first_use_static, Hs. by rewrite bool_decide_eq_true_2. }
  split; [done |]. split; [by apply run_on |].
  intros rs w2 Hr. destruct (run_on_keeps acts w1 rs w2 Hon Hr) as [H3 H4].
  split; [done |]. rewrite H4, H2. unfold first_use. rewrite Hs.
  cbn [trace]. by rewrite List.filter_app.
Qed.

Lemma enable_latch_witness :
  exists w1,
    wxGtkDebugLog scenario w_demo = Some (true, w1) /\
    GDK_DEBUG_defined w1 = Some true /\
    run wxGtkDebugLog [AUnsetenv "GDK_DEBUG"; ACall scenario] w1 =
    run log_record [AUnsetenv "GDK_DEBUG"; ACall scenario] w1 /\
    forall rs w2,
      run wxGtkDebugLog [AUnsetenv "GDK_DEBUG"; ACall scenario] w1 = Some (rs, w2) ->
      GDK_DEBUG_defined w2 = Some true /\
      List.filter is_getenv (trace w2) =
      List.filter is_getenv (trace w_demo) ++ [EvGetEnv "GDK_DEBUG"].
Proof.
  eexists. split; [vm_compute; reflexivity |].
  apply (enable_latch scenario [AUnsetenv "GDK_DEBUG"; ACall scenario]
                      w_demo true);
    [reflexivity | by eexists | vm_compute; reflexivity].
Defined.

(** The latch at work: the variable is removed after the first call, and the
    second call still logs. *)
Example latch_after_unsetenv :
  (fun r => (fst r, log_content (snd r))) <$>
    run wxGtkDebugLog [ACall scenario; AUnsetenv "GDK_DEBUG"; ACall scenario] w_demo
  = Some ([true; true],
          "PreciseTime:1700000000,123. worker.c:42:DoWork--->value=7" +:+
          "PreciseTime:1700000000,123. worker.c:42:DoWork--->value=7").
Proof. vm_compute. reflexivity. Qed.

(** ** Failure to open the log file (C4) *)

(** C4: an enabled call whose open fails returns [false] for every format
    and every argument list (the caller's format is never looked at, so the
    call has a result even where formatting would have none), leaves all
    files as they were and makes no write: after the lookup of the variable,
    if this is the first call, it only tries the open and reads the clock.
    It is the only way an enabled call returns [false]: when the open
    succeeds, a call that returns at all returns [true]. *)
Theorem open_failure_swallowed c w :
  enabled w ->
  (logpath ∈ denied w ->
   exists w',
     wxGtkDebugLog c w = Some (false, w') /\
     files w' = files w /\
     trace w' = trace (first_use w) ++ [EvFopen logpath "a" false; EvClockGettime]) /\
  (logpath ∉ denied w ->
   forall r w', wxGtkDebugLog c w = Some (r, w') -> r = true).
Proof.
  intros He. rewrite wxGtkDebugLog_enabled by done.
  destruct (first_use_fields w) as (_ & Hf & Hd & _).
  split.
  - intros Hden. rewrite log_record_denied by (by rewrite Hd).
    eexists. split; [reflexivity |]. by cbn [files trace].
  - intros Hok r w'. rewrite <- Hd in Hok.
    log_record_cases c (first_use w); [done | |]; by intros [= <- <-].
Qed.

Lemma open_failure_swallowed_witness :
  (logpath ∈ denied w_readonly ->
   exists w',
     wxGtkDebugLog scenario w_readonly = Some (false, w') /\
     files w' = files w_readonly /\
     trace w' = trace (first_use w_readonly) ++
                [EvFopen logpath "a" false; EvClockGettime]) /\
  (logpath ∉ denied w_readonly ->
   forall r w', wxGtkDebugLog scenario w_readonly = Some (r, w') -> r = true).
Proof.
  apply (open_failure_swallowed scenario w_readonly). by eexists.
Defined.

Example open_failure_run :
  (fun r => (fst r, files (snd r), trace (snd r))) <$>
    wxGtkDebugLog (Call "%d %d" "f" 1 "x.c" []) w_readonly
  = Some (false, {[ logpath := "old" ]},
          [EvGetEnv "GDK_DEBUG"; EvFopen logpath "a" false; EvClockGettime]).
Proof. vm_compute. reflexivity. Qed.

(** ** Length of the fixed fields *)

Lemma prefix_text_length t c : (0 < String.length (prefix_text t c))%nat.
Proof. unfold prefix_text. rewrite app_string_length. simpl. lia. Qed.

(** ** Reading a record back *)

Lemma string_drop_app (a b : string) :
  string_drop (String.length a) (a +:+ b) = b.
Proof. induction a as [|x a IH]; [done |]. by rewrite app_string_cons. Qed.

Lemma uint_chars d : all_chars sign_or_digit (NilEmpty.string_of_uint d) = true.
Proof. induction d; simpl; try done. Qed.

Lemma dec_chars z : all_chars sign_or_digit (dec z) = true.
Proof.
  unfold dec, NilZero.string_of_int, NilZero.string_of_uint.
  destruct (Z.to_int z) as [d|d]; destruct d; simpl; try done; apply uint_chars.
Qed.

Lemma span_until_app stop a rest :
  all_chars (fun c => negb (Ascii.eqb c stop)) a = true ->
  span_until stop (a +:+ String stop rest) = (a, String stop rest).
Proof.
  induction a as [|x a IH]; intros H.
  - rewrite app_string_nil_l. cbn [span_until]. by rewrite Ascii.eqb_refl.
  - rewrite app_string_cons. cbn [span_until all_chars] in *.
    apply andb_prop in H as [Hx Ha]. apply negb_true_iff in Hx.
    by rewrite Hx, IH.
Qed.

Lemma all_chars_weaken (p q : ascii -> bool) s :
  (forall c, p c = true -> q c = true) ->
  all_chars p s = true -> all_chars q s = true.
Proof.
  intros Hpq. induction s as [|x s IH]; [done |]. cbn [all_chars].
  intros [Hx Hs]%andb_prop. rewrite (Hpq _ Hx). by apply IH.
Qed.

Lemma sign_or_digit_not (stop : ascii) :
  sign_or_digit stop = false ->
  forall c, sign_or_digit c = true -> negb (Ascii.eqb c stop) = true.
Proof.
  intros Hs c Hc. apply negb_true_iff. destruct (Ascii.eqb_spec c stop); [| done].
  congruence.
Qed.

Lemma parse_long_dec z : parse_long (dec z) = Some z.
Proof.
  unfold parse_long, dec. rewrite NilZero.isi.
  - cbn. by rewrite DecimalZ.of_to.
  - destruct z; [done | | done]. cbn. intros [= H].
    by apply Unsigned.to_uint_nonnil in H.
  - destruct z; [done | done |]. cbn. intros [= H].
    by apply Unsigned.to_uint_nonnil in H.
Qed.

Lemma record_timestamp_prefix t c msg :
  record_timestamp (prefix_text t c +:+ msg) = Some t.
Proof.
  unfold prefix_text. rewrite !app_string_assoc.
  unfold record_timestamp.
  change (strip_prefix "PreciseTime:" ("PreciseTime:" +:+ ?x)) with (Some x).
  cbv beta iota.
  change ("," +:+ ?x) with (String ","%char x).
  rewrite span_until_app
    by (eapply all_chars_weaken;
        [apply sign_or_digit_not; reflexivity | apply dec_chars]).
  change (". " +:+ ?x) with (String "."%char (String " "%char x)).
  rewrite span_until_app
    by (eapply all_chars_weaken;
        [apply sign_or_digit_not; reflexivity | apply dec_chars]).
  rewrite !parse_long_dec. by destruct t.
Qed.

(** A call that returned [true] was enabled, opened the file, and added
    the fixed fields and the caller's message, in this order, to the end of
    the log file. *)
Lemma wxGtkDebugLog_true c w w' :
  wxGtkDebugLog c w = Some (true, w') ->
  exists msg,
    enabled w /\ (logpath ∉ denied w) /\
    vformat (format c) (va c) = Some msg /\
    log_content w' = log_content w +:+ prefix_text (realtime w) c +:+ msg.
Proof.
  destruct (first_use_fields w) as (_ & Hf & Hd & Ht).
  destruct (enabled_dec w) as [He|He].
  - rewrite wxGtkDebugLog_enabled by done.
    log_record_cases c (first_use w); [done | | done].
    intros [= <-]. exists msg. rewrite <- Hd. do 3 (split; [done |]).
    unfold log_content. cbn [files]. rewrite lookup_insert_eq, Hf, Ht. done.
  - by rewrite wxGtkDebugLog_disabled.
Qed.

Lemma appended_record c w w' :
  wxGtkDebugLog c w = Some (true, w') ->
  exists msg,
    vformat (format c) (va c) = Some msg /\
    appended w w' = prefix_text (realtime w) c +:+ msg.
Proof.
  intros (msg & _ & _ & Hm & Hc)%wxGtkDebugLog_true. exists msg.
  split; [done |]. unfold appended. by rewrite Hc, string_drop_app.
Qed.

(** ** Timestamps of consecutive records (C6) *)




(** ** Order of the library calls (C9) *)

Lemma new_events_app w w' evs :
  trace w' = trace w ++ evs -> new_events w w' = evs.
Proof. intros H. unfold new_events. rewrite H. apply drop_app_length. Qed.

(** C9, as stated, fails: in the scenario of the specification the call
    opens the log file before it reads the clock. *)
Lemma clock_before_open_counterexample :
  enabled w_demo /\
  wxGtkDebugLog scenario w_demo = Some (true, w_demo_A) /\
  new_events w_demo w_demo_A =
    [EvGetEnv "GDK_DEBUG"; EvFopen logpath "a" true; EvClockGettime;
     EvWrite logpath "PreciseTime:1700000000,123. worker.c:42:DoWork--->";
     EvWrite logpath "value=7"; EvFclose logpath] /\
  clock_then_open (new_events w_demo w_demo_A) = false.
Proof.
  split; [by eexists |]. split; [vm_compute; reflexivity |].
  split; vm_compute; reflexivity.
Qed.

(** C9 (amended): in every enabled call the log file is opened in append
    mode first and the real-time clock is read after that, whether or not
    the open succeeded; the writes and the close follow the clock reading.
    An enabled call returns whenever the open fails or the caller's format
    has a meaning for its arguments. *)
Theorem open_precedes_clock c w :
  enabled w ->
  logpath ∈ denied w \/ is_Some (vformat (format c) (va c)) ->
  exists r w' rest,
    wxGtkDebugLog c w = Some (r, w') /\
    trace w' = trace (first_use w) ++
               EvFopen logpath "a" r :: EvClockGettime :: rest /\
    Forall (fun e => is_fopen e = false /\ is_clock e = false) rest /\
    open_then_clock (new_events (first_use w) w') = true /\
    clock_then_open (new_events (first_use w) w') = false.
Proof.
  intros He Hdef. rewrite wxGtkDebugLog_enabled by done.
  destruct (first_use_fields w) as (_ & _ & Hd & _).
  destruct (decide (logpath ∈ denied (first_use w))) as [Hden|Hden].
  - rewrite log_record_denied by done.
    exists false; eexists; exists []. split; [done |].
    cbn [trace]. split; [done |]. split; [by constructor |].
    by erewrite new_events_app by reflexivity.
  - destruct Hdef as [Hin|[msg Hmsg]]; [by rewrite Hd in Hden |].
    rewrite (log_record_opened _ _ msg) by done.
    exists true; eexists; eexists. split; [done |].
    cbn [trace]. split; [done |]. split; [by repeat constructor |].
    by erewrite new_events_app by reflexivity.
Qed.

Lemma open_precedes_clock_witness :
  exists r w' rest,
    wxGtkDebugLog scenario w_demo = Some (r, w') /\
    trace w' = trace (first_use w_demo) ++
               EvFopen logpath "a" r :: EvClockGettime :: rest /\
    Forall (fun e => is_fopen e = false /\ is_clock e = false) rest /\
    open_then_clock (new_events (first_use w_demo) w') = true /\
    clock_then_open (new_events (first_use w_demo) w') = false.
Proof.
  apply (open_precedes_clock scenario w_demo); [by eexists |].
  right. by eexists.
Defined.

(** ** Line terminators (C10) *)

Lemma ends_with_newline_app (a b : string) :
  ends_with_newline (a +:+ b) =
  match b with
  | EmptyString => ends_with_newline a
  | String _ _ => ends_with_newline b
  end.
Proof.
  induction a as [|x a IH].
  - rewrite app_string_nil_l. by destruct b.
  - rewrite app_string_cons. cbn [ends_with_newline]. rewrite IH.
    destruct a as [|y a].
    + rewrite app_string_nil_l. by destruct b.
    + rewrite app_string_cons. by destruct b.
Qed.

Lemma ends_with_app (sfx a : string) : ends_with sfx (a +:+ sfx) = true.
Proof.
  induction a as [|x a IH].
  - rewrite app_string_nil_l. destruct sfx; cbn [ends_with];
      by rewrite String.eqb_refl.
  - rewrite app_string_cons. cbn [ends_with]. rewrite IH. apply orb_true_r.
Qed.

Lemma prefix_text_arrow t c :
  ends_with "--->" (prefix_text t c) = true /\
  ends_with_newline (prefix_text t c) = false.
Proof.
  unfold prefix_text. rewrite <- !app_string_assoc.
  split; [apply ends_with_app |]. by rewrite ends_with_newline_app.
Qed.



(** ** The two versions (C7) *)

(** C7: the two versions of the function are not equivalent.  On an enabled
    call whose open succeeds and whose format suits both, the first version
    writes the source position, the arrow and the caller's arguments
    formatted by the caller's format; the second writes the time and then
    the caller's format applied to the source file, the line number and the
    function name in place of the caller's arguments. *)
Theorem versions_differ :
  exists w1 w2,
    enabled w_demo /\ (logpath ∉ denied w_demo) /\
    wxGtkDebugLog pair_call w_demo = Some (true, w1) /\
    wxGtkDebugLog_v2 pair_call w_demo = Some (true, w2) /\
    log_content w1 = "PreciseTime:1700000000,123. worker.c:42:DoWork--->value=7" /\
    log_content w2 = "PreciseTime:1700000000,123. worker.c=42" /\
    List.filter is_write (new_events w_demo w2) =
      [EvWrite logpath "PreciseTime:1700000000,123. ";
       EvWrite logpath "worker.c=42"] /\
    message_v2 pair_call = Some "worker.c=42" /\
    log_content w1 <> log_content w2.
Proof.
  do 2 eexists. split; [by eexists |]. split; [set_solver |].
  split; [vm_compute; reflexivity |]. split; [vm_compute; reflexivity |].
  split; [vm_compute; reflexivity |]. split; [vm_compute; reflexivity |].
  split; [vm_compute; reflexivity |]. split; [vm_compute; reflexivity |].
  vm_compute. discriminate.
Qed.

(** On the scenario of the specification the second version has no meaning
    at all: its [%d] meets the source file name. *)
Example scenario_v2_undefined : wxGtkDebugLog_v2 scenario w_demo = None.
Proof. vm_compute. reflexivity. Qed.

(** ** The value of the variable (C8) *)

Lemma alike_enabled w1 w2 : alike w1 w2 -> enabled w1 <-> enabled w2.
Proof.
  intros [He _ _ _ Hs _]. unfold enabled. rewrite Hs.
  destruct (GDK_DEBUG_defined w2); [done | apply He].
Qed.

Lemma alike_first_use w1 w2 : alike w1 w2 -> alike (first_use w1) (first_use w2).
Proof.
  intros H. pose proof H as [He Hf Hd Ht Hs Htr]. unfold first_use.
  rewrite Hs. destruct (GDK_DEBUG_defined w2); [done |].
  constructor; cbn; try done; try congruence.
  f_equal. apply bool_decide_ext, He.
Qed.

Lemma alike_log_record c w1 w2 :
  alike w1 w2 -> result_alike (log_record c w1) (log_record c w2).
Proof.
  intros [He Hf Hd Ht Hs Htr].
  log_record_cases c w1.
  - rewrite log_record_denied by (by rewrite <- Hd).
    split; [done |]. constructor; cbn; try done; congruence.
  - rewrite (log_record_opened c w2 msg) by (by rewrite <- ?Hd).
    split; [done |]. unfold log_content.
    constructor; cbn; try done; congruence.
  - by rewrite log_record_undefined by (by rewrite <- ?Hd).
Qed.

Lemma alike_call c w1 w2 :
  alike w1 w2 -> result_alike (wxGtkDebugLog c w1) (wxGtkDebugLog c w2).
Proof.
  intros H. destruct (enabled_dec w1) as [He|He].
  - rewrite !wxGtkDebugLog_enabled by (by rewrite <- ?(alike_enabled w1 w2)).
    by apply alike_log_record, alike_first_use.
  - rewrite !wxGtkDebugLog_disabled by (by rewrite <- ?(alike_enabled w1 w2)).
    split; [done |]. by apply alike_first_use.
Qed.

Lemma alike_outside a1 a2 w1 w2 :
  action_alike a1 a2 -> alike w1 w2 -> alike (outside a1 w1) (outside a2 w2).
Proof.
  intros Ha [He Hf Hd Ht Hs Htr].
  destruct Ha as [a|n v1 v2]; [destruct a |]; constructor; cbn; try done;
    try congruence; intros m.
  - destruct (decide (name = m)) as [->|Hne].
    + rewrite !lookup_insert_eq. by split; eauto.
    + by rewrite !lookup_insert_ne.
  - destruct (decide (name = m)) as [->|Hne].
    + rewrite !lookup_delete_eq. by split; intros [? ?].
    + by rewrite !lookup_delete_ne.
  - destruct (decide (n = m)) as [->|Hne].
    + rewrite !lookup_insert_eq. by split; eauto.
    + by rewrite !lookup_insert_ne.
Qed.

(** C8: only the presence of the variable counts, never its value.  Two
    runs of the process that start in worlds which differ in nothing but the
    values of environment variables, and whose steps differ in nothing but
    the values they assign, go the same way: either both have no meaning, or
    the calls return the same results, and the files, the library calls made
    (with the bytes written) and the static are the same at the end. *)
Theorem value_irrelevant acts1 acts2 : forall w1 w2,
  Forall2 action_alike acts1 acts2 ->
  alike w1 w2 ->
  result_alike (run wxGtkDebugLog acts1 w1) (run wxGtkDebugLog acts2 w2).
Proof.
  intros w1 w2 Hacts. revert w1 w2.
  induction Hacts as [|a1 a2 acts1 acts2 Ha _ IH]; intros w1 w2 Hw; [done |].
  pose proof (alike_outside _ _ _ _ Ha Hw) as Ho.
  destruct Ha as [a|n v1 v2]; [destruct a as [c| | | | |] |].
  1:{ rewrite !run_call. pose proof (alike_call c _ _ Hw) as Hc.
      destruct (wxGtkDebugLog c w1) as [[r1 u1]|],
               (wxGtkDebugLog c w2) as [[r2 u2]|]; try done.
      destruct Hc as [-> Hu]. specialize (IH _ _ Hu).
      destruct (run wxGtkDebugLog acts1 u1) as [[rs1 x1]|],
               (run wxGtkDebugLog acts2 u2) as [[rs2 x2]|]; try done.
      destruct IH as [-> Hx]. done. }
  all: rewrite !run_outside by done; by apply IH.
Qed.

Lemma value_irrelevant_witness :
  result_alike
    (run wxGtkDebugLog
         [ACall scenario; ASetenv "GDK_DEBUG" "all"; ACall pair_call]
         (w_value "1"))
    (run wxGtkDebugLog
         [ACall scenario; ASetenv "GDK_DEBUG" ""; ACall pair_call]
         (w_value "")).
Proof.
  apply (value_irrelevant
           [ACall scenario; ASetenv "GDK_DEBUG" "all"; ACall pair_call]
           [ACall scenario; ASetenv "GDK_DEBUG" ""; ACall pair_call]
           (w_value "1") (w_value "")).
  - repeat constructor.
  - constructor; try reflexivity. intros n. cbn.
    destruct (decide ("GDK_DEBUG" = n)) as [<-|Hne].
    + rewrite !lookup_singleton_eq. split; eauto.
    + rewrite !lookup_singleton_ne by done. reflexivity.
Defined.

(** ** Lengths of formatted text *)

Ltac fmap_some H :=
  let m := fresh "m" in
  let Hm := fresh "Hm" in
  let E := fresh "E" in
  apply fmap_Some in H as (m & Hm & E); subst.

Lemma vformat_lengths n : forall fmt a1 a2 m1 m2,
  (String.length fmt <= n)%nat ->
  vformat fmt a1 = Some m1 -> vformat fmt a2 = Some m2 ->
  (String.length m2 <= String.length m1 + args_length a2)%nat.
Proof.
  induction n as [|n IH]; intros fmt a1 a2 m1 m2 Hn H1 H2.
  - destruct fmt; [| simpl in Hn; lia]. cbn in H1, H2.
    injection H1 as <-. injection H2 as <-. simpl. lia.
  - destruct fmt as [|c r].
    { cbn in H1, H2. injection H1 as <-. injection H2 as <-. simpl. lia. }
    cbn [vformat] in H1, H2. cbn [String.length] in Hn.
    destruct (Ascii.eqb c "%").
    2:{ fmap_some H1. fmap_some H2. cbn [String.length].
        pose proof (IH r a1 a2 _ _ ltac:(lia) Hm Hm0). lia. }
    destruct r as [|c1 r1]; [done |]. cbn [String.length] in Hn.
    destruct (Ascii.eqb c1 "%").
    { fmap_some H1. fmap_some H2. cbn [String.length].
      pose proof (IH r1 a1 a2 _ _ ltac:(lia) Hm Hm0). lia. }
    destruct (Ascii.eqb c1 "d").
    { destruct a1 as [|[x1| | |] a1]; try done.
      destruct a2 as [|[x2| | |] a2]; try done.
      fmap_some H1. fmap_some H2. rewrite !app_string_length.
      pose proof (IH r1 a1 a2 _ _ ltac:(lia) Hm Hm0).
      cbn [args_length arg_length]. lia. }
    destruct (Ascii.eqb c1 "s").
    { destruct a1 as [|[| |x1|] a1]; try done.
      destruct a2 as [|[| |x2|] a2]; try done.
      fmap_some H1. fmap_some H2. rewrite !app_string_length.
      pose proof (IH r1 a1 a2 _ _ ltac:(lia) Hm Hm0).
      cbn [args_length arg_length]. lia. }
    destruct (Ascii.eqb c1 "l"); [| done].
    destruct r1 as [|c2 r2]; [done |]. cbn [String.length] in Hn.
    destruct (Ascii.eqb c2 "d"); [| done].
    destruct a1 as [|[|x1| |] a1]; try done.
    destruct a2 as [|[|x2| |] a2]; try done.
    fmap_some H1. fmap_some H2. rewrite !app_string_length.
    pose proof (IH r2 a1 a2 _ _ ltac:(lia) Hm Hm0).
    cbn [args_length arg_length]. lia.
Qed.

Lemma prefix_text_time t c :
  String.length (prefix_text t c) =
  (String.length (time_text t) + String.length (src_file c) +
   String.length (dec (line_num c)) + String.length (function_name c) + 6)%nat.
Proof.
  unfold prefix_text, time_text. rewrite !app_string_length. simpl. lia.
Qed.

Lemma log_record_v2_undefined c w :
  logpath ∉ denied w ->
  message_v2 c = None ->
  log_record_v2 c w = None.
Proof.
  intros Hd Hm. unfold log_record_v2, mbind, M_bind.
  rewrite fopen_a_ok by done.
  destruct w as [e f d t s tr]. world_fields.
  unfold message_v2 in Hm. unfold fprintf, vfprintf. rewrite Hm.
  change (vformat "PreciseTime:%ld,%ld. " [ArgLong (tv_sec t); ArgLong (tv_nsec t)])
    with (Some (time_text t)).
  world_fields. reflexivity.
Qed.

(** * Further properties of the logger *)

(** ** One call, case by case *)

(** The three ways of an enabled call, and the disabled call. *)
Ltac call_cases c w :=
  let He := fresh "He" in
  destruct (enabled_dec w) as [He|He];
  [ rewrite (wxGtkDebugLog_enabled c w) by done;
    log_record_cases c (first_use w)
  | rewrite (wxGtkDebugLog_disabled c w) by done ].

(** X1: the value returned tells whether a record was written: a call
    returns [true] exactly when logging is enabled for the process and the
    log file could be opened. *)
Theorem returns_true_iff c w r w' :
  wxGtkDebugLog c w = Some (r, w') ->
  (r = true <-> enabled w /\ logpath ∉ denied w).
Proof.
  destruct (first_use_fields w) as (_ & _ & Hd & _).
  call_cases c w; intros [= <- <-]; rewrite ?Hd in *; split; try done.
  - by intros [_ ?].
  - by intros [? _].
Qed.

Lemma returns_true_iff_witness :
  true = true <-> enabled w_demo /\ logpath ∉ denied w_demo.
Proof.
  apply (returns_true_iff scenario w_demo true w_demo_A).
  vm_compute; reflexivity.
Defined.

(** X3: the log file exists after a call exactly when it existed before or
    the call returned [true]: a successful call creates the file where there
    was none, even for an empty message, and no other call does. *)
Theorem log_file_exists_iff c w r w' :
  wxGtkDebugLog c w = Some (r, w') ->
  (is_Some (files w' !! logpath) <-> is_Some (files w !! logpath) \/ r = true).
Proof.
  destruct (first_use_fields w) as (_ & Hf & _ & _).
  call_cases c w; intros [= <- <-]; cbn [files]; rewrite ?Hf.
  - split; [by left | by intros [?|?]].
  - rewrite lookup_insert_eq. split; [by right | by eauto].
  - split; [by left | by intros [?|?]].
Qed.

Lemma log_file_exists_iff_witness :
  is_Some (files w_demo_A !! logpath) <->
  is_Some (files w_demo !! logpath) \/ true = true.
Proof.
  apply (log_file_exists_iff scenario w_demo true w_demo_A).
  vm_compute; reflexivity.
Defined.

(** ** What a run leaves alone *)

Lemma call_other_files c w r w' p :
  wxGtkDebugLog c w = Some (r, w') ->
  p <> logpath -> files w' !! p = files w !! p.
Proof.
  destruct (first_use_fields w) as (_ & Hf & _ & _).
  call_cases c w; intros [= <- <-] Hp; cbn [files]; rewrite ?Hf; try done.
  by rewrite lookup_insert_ne.
Qed.

(** X4: the fixed path is the only file the logger ever touches.  Over a
    run of any length, every other path has the contents, or the absence, it
    had before. *)
Theorem other_files_untouched acts : forall w rs w' p,
  run wxGtkDebugLog acts w = Some (rs, w') ->
  p <> logpath -> files w' !! p = files w !! p.
Proof.
  induction acts as [|a acts IH]; intros w rs w' p.
  - by intros [= <- <-].
  - destruct (outside_keeps a w) as (Hf0 & _ & _).
    destruct a as [c| | | | |].
    1:{ rewrite run_call.
        destruct (wxGtkDebugLog c w) as [[r w1]|] eqn:E; [| done].
        destruct (run wxGtkDebugLog acts w1) as [[rs1 w2]|] eqn:E2; [| done].
        intros [= <- <-] Hp.
        rewrite (IH _ _ _ _ E2 Hp). by apply (call_other_files c w r). }
    all: rewrite run_outside by done; intros Hr Hp;
      rewrite (IH _ _ _ _ Hr Hp); by rewrite Hf0.
Qed.

Lemma other_files_untouched_witness :
  files (run_world [ACall scenario; ACall pair_call] w_two_files)
    !! "/tmp/other.log"
  = files w_two_files !! "/tmp/other.log".
Proof.
  apply (other_files_untouched
           [ACall scenario; ACall pair_call] w_two_files [true; true]).
  - vm_compute; reflexivity.
  - discriminate.
Defined.

(** ** Streams *)

Lemma count_app p (l k : list event) :
  count p (l ++ k) = (count p l + count p k)%nat.
Proof. unfold count. by rewrite List.filter_app, length_app. Qed.

Lemma call_events c w r w' :
  wxGtkDebugLog c w = Some (r, w') ->
  exists evs,
    trace w' = trace w ++ evs /\
    count is_open_ok evs = (if r then 1 else 0)%nat /\
    count is_fclose evs = (if r then 1 else 0)%nat.
Proof.
  assert (Hfu : exists pre, trace (first_use w) = trace w ++ pre /\
                            count is_open_ok pre = O /\ count is_fclose pre = O).
  { unfold first_use. destruct (GDK_DEBUG_defined w).
    - exists []. by rewrite app_nil_r.
    - by eexists. }
  destruct Hfu as (pre & Hpre & Ho & Hc).
  call_cases c w; intros [= <- <-]; cbn [trace]; rewrite Hpre, <- ?(assoc_L (++)).
  - eexists. split; [done |]. rewrite !count_app, Ho, Hc. done.
  - eexists. split; [done |]. rewrite !count_app, Ho, Hc. done.
  - exists pre. by rewrite Ho, Hc.
Qed.

(** X5: no stream is left open.  Among the library calls of a run of any
    length there are as many closes as successful opens, one pair for each
    call that returned [true]. *)
Theorem streams_closed acts : forall w rs w',
  run wxGtkDebugLog acts w = Some (rs, w') ->
  count is_open_ok (new_events w w') = trues rs /\
  count is_fclose (new_events w w') = trues rs.
Proof.
  assert (H : forall w rs w',
             run wxGtkDebugLog acts w = Some (rs, w') ->
             exists evs, trace w' = trace w ++ evs /\
                         count is_open_ok evs = trues rs /\
                         count is_fclose evs = trues rs).
  { induction acts as [|a acts IH]; intros w rs w'.
    - intros [= <- <-]. exists []. by rewrite app_nil_r.
    - destruct (outside_keeps a w) as (_ & _ & Ht0).
      destruct a as [c| | | | |].
      1:{ rewrite run_call.
          destruct (wxGtkDebugLog c w) as [[r w1]|] eqn:E; [| done].
          destruct (run wxGtkDebugLog acts w1) as [[rs1 w2]|] eqn:E2; [| done].
          intros [= <- <-].
          destruct (call_events _ _ _ _ E) as (e1 & Ht1 & Ho1 & Hc1).
          destruct (IH _ _ _ E2) as (e2 & Ht2 & Ho2 & Hc2).
          exists (e1 ++ e2). rewrite Ht2, Ht1, <- (assoc_L (++)).
          split; [done |]. rewrite !count_app, Ho1, Hc1, Ho2, Hc2.
          by cbn [trues]. }
      all: rewrite run_outside by done; intros Hr;
        destruct (IH _ _ _ Hr) as (e2 & Ht2 & Ho2 & Hc2);
        exists e2; by rewrite Ht2, Ht0. }
  intros w rs w' Hr. destruct (H w rs w' Hr) as (evs & Ht & Ho & Hc).
  by rewrite (new_events_app _ _ _ Ht).
Qed.

Lemma streams_closed_witness :
  count is_open_ok
        (new_events w_demo
           (run_world [ACall scenario; ADeny logpath; ACall scenario;
                       AAllow logpath; ACall pair_call] w_demo))
    = trues [true; false; true] /\
  count is_fclose
        (new_events w_demo
           (run_world [ACall scenario; ADeny logpath; ACall scenario;
                       AAllow logpath; ACall pair_call] w_demo))
    = trues [true; false; true].
Proof.
  apply (streams_closed
           [ACall scenario; ADeny logpath; ACall scenario;
            AAllow logpath; ACall pair_call] w_demo [true; false; true]).
  vm_compute; reflexivity.
Defined.

(** ** The macro *)



(** ** Reading the time back *)

(** X8: the time of a record is fixed by its bytes.  Two records of the
    first version that are equal as text carry the same seconds and the same
    nanoseconds, whatever the file names, line numbers, function names and
    messages are. *)
Theorem record_time_unambiguous t1 c1 m1 t2 c2 m2 :
  prefix_text t1 c1 +:+ m1 = prefix_text t2 c2 +:+ m2 -> t1 = t2.
Proof.
  intros E.
  pose proof (record_timestamp_prefix t1 c1 m1) as H1.
  rewrite E, record_timestamp_prefix in H1. congruence.
Qed.

Lemma record_time_unambiguous_witness :
  Timespec 1 2 = Timespec 1 2.
Proof.
  apply (record_time_unambiguous
           (Timespec 1 2) (Call "" "f--->" 3 "a.c" []) "x"
           (Timespec 1 2) (Call "" "f" 3 "a.c" []) "--->x").
  vm_compute; reflexivity.
Defined.

(** ** The two versions, side by side *)

Lemma log_record_v2_denied_eq c w :
  logpath ∈ denied w -> log_record_v2 c w = log_record c w.
Proof.
  intros Hd. unfold log_record_v2, log_record, mbind, M_bind.
  by rewrite fopen_a_denied.
Qed.

Lemma wxGtkDebugLog_v2_disabled c w :
  ~ enabled w -> wxGtkDebugLog_v2 c w = Some (false, first_use w).
Proof.
  intros H. rewrite wxGtkDebugLog_v2_unfold. unfold mbind, M_bind.
  by rewrite static_disabled.
Qed.

(** Both versions on the same call, case by case. *)
Ltac both_cases c w :=
  let He := fresh "He" in
  let Hden := fresh "Hden" in
  let m1 := fresh "m1" in
  let m2 := fresh "m2" in
  let Hm1 := fresh "Hm1" in
  let Hm2 := fresh "Hm2" in
  destruct (enabled_dec w) as [He|He];
  [ rewrite (wxGtkDebugLog_enabled c w), (wxGtkDebugLog_v2_enabled c w) by done;
    destruct (decide (logpath ∈ denied (first_use w))) as [Hden|Hden];
    [ rewrite (log_record_v2_denied_eq c (first_use w)),
              (log_record_denied c (first_use w)) by done
    | destruct (vformat (format c) (va c)) as [m1|] eqn:Hm1;
      [ rewrite (log_record_opened c (first_use w) m1) by done
      | rewrite (log_record_undefined c (first_use w)) by done ];
      (destruct (message_v2 c) as [m2|] eqn:Hm2;
       [ rewrite (log_record_v2_opened c (first_use w) m2) by done
       | rewrite (log_record_v2_undefined c (first_use w)) by done ]) ]
  | rewrite (wxGtkDebugLog_disabled c w), (wxGtkDebugLog_v2_disabled c w) by done ].

(** X11: where both versions return, they return the same value, make the
    same library calls in the same order, leave the static alike and treat
    every file but the log file alike: they differ in the bytes they write
    and in nothing else. *)
Theorem versions_same_calls c w r1 w1 r2 w2 :
  wxGtkDebugLog c w = Some (r1, w1) ->
  wxGtkDebugLog_v2 c w = Some (r2, w2) ->
  r1 = r2 /\
  blank <$> trace w1 = blank <$> trace w2 /\
  GDK_DEBUG_defined w1 = GDK_DEBUG_defined w2 /\
  environ w1 = environ w2 /\
  forall p, p <> logpath -> files w1 !! p = files w2 !! p.
Proof.
  both_cases c w; try done; intros [= <- <-] [= <- <-]; try done.
  cbn [trace GDK_DEBUG_defined environ files].
  split; [done |]. split; [by rewrite !fmap_app |]. split; [done |].
  split; [done |]. intros p Hp. by rewrite !lookup_insert_ne.
Qed.

Lemma versions_same_calls_witness :
  true = true /\
  blank <$> trace w_pair_v1 = blank <$> trace w_pair_v2 /\
  GDK_DEBUG_defined w_pair_v1 = GDK_DEBUG_defined w_pair_v2 /\
  environ w_pair_v1 = environ w_pair_v2 /\
  forall p, p <> logpath -> files w_pair_v1 !! p = files w_pair_v2 !! p.
Proof.
  apply (versions_same_calls pair_call w_demo true w_pair_v1 true w_pair_v2);
    vm_compute; reflexivity.
Defined.

(** ** The formats the second version can take *)

Lemma suits_cons k fmt args :
  match cons k <$> conversions fmt with
  | Some l => args_suit l args
  | None => false
  end =
  match args with
  | a :: args' => arg_suits k a && suits fmt args'
  | [] => false
  end.
Proof.
  unfold suits. destruct (conversions fmt) as [l|]; cbn.
  - by destruct args.
  - destruct args; [done |]. by rewrite andb_false_r.
Qed.

(** [vformat] has a meaning exactly when every conversion of the format
    finds an argument of its type. *)
Lemma vformat_defined n : forall fmt args,
  (String.length fmt <= n)%nat ->
  is_Some (vformat fmt args) <-> suits fmt args = true.
Proof.
  induction n as [|n IH]; intros fmt args Hn.
  - destruct fmt; [| simpl in Hn; lia]. cbn. split; [done | by eauto].
  - destruct fmt as [|c r]; [cbn; split; [done | by eauto] |].
    cbn [String.length] in Hn.
    unfold suits. cbn [vformat conversions].
    destruct (Ascii.eqb c "%").
    2:{ rewrite fmap_is_Some. apply IH. lia. }
    destruct r as [|c1 r1]; [split; [by intros [? ?] | done] |].
    cbn [String.length] in Hn.
    destruct (Ascii.eqb c1 "%").
    { rewrite fmap_is_Some. apply IH. lia. }
    destruct (Ascii.eqb c1 "d").
    { rewrite suits_cons. destruct args as [|[x| | |] args];
        try (split; [by intros [? ?] | done]).
      rewrite fmap_is_Some. cbn. apply IH. lia. }
    destruct (Ascii.eqb c1 "s").
    { rewrite suits_cons. destruct args as [|[| |x|] args];
        try (split; [by intros [? ?] | done]).
      rewrite fmap_is_Some. cbn. apply IH. lia. }
    destruct (Ascii.eqb c1 "l"); [| split; [by intros [? ?] | done]].
    destruct r1 as [|c2 r2]; [split; [by intros [? ?] | done] |].
    cbn [String.length] in Hn.
    destruct (Ascii.eqb c2 "d"); [| split; [by intros [? ?] | done]].
    rewrite suits_cons. destruct args as [|[|x| |] args];
      try (split; [by intros [? ?] | done]).
    rewrite fmap_is_Some. cbn. apply IH. lia.
Qed.

Lemma args_suit_v2 l s1 n s2 :
  args_suit l [ArgStr s1; ArgInt n; ArgStr s2; ArgVaList] = true <->
  l `prefix_of` [ConvStr; ConvInt; ConvStr].
Proof.
  split.
  - destruct l as [|k1 [|k2 [|k3 [|k4 l]]]]; intros H.
    + by eexists.
    + destruct k1; first [done | by eexists].
    + destruct k1, k2; first [done | by eexists].
    + destruct k1, k2, k3; first [done | by eexists].
    + exfalso. by destruct k1, k2, k3, k4.
  - intros [k E].
    destruct l as [|k1 [|k2 [|k3 [|k4 l]]]]; [done | | | |];
      cbn in E; by simplify_eq.
Qed.

(** The scenario of the specification starts with [%d]. *)
Example scenario_conversions : conversions "value=%d" = Some [ConvInt].
Proof. reflexivity. Qed.

(** * The logger on a device that may refuse bytes *)

(** ** What the device takes *)

Lemma string_take_app n (a b : string) :
  string_take n (a +:+ b) =
  string_take n a +:+ string_take (n - String.length (string_take n a)) b.
Proof.
  revert n. induction a as [|x a IH]; intros n.
  - rewrite !app_string_nil_l. destruct n; cbn; [done |].
    by rewrite app_string_nil_l.
  - destruct n; [done |]. rewrite app_string_cons. cbn [string_take String.length].
    rewrite app_string_cons, IH. done.
Qed.

Lemma string_take_all n (a : string) :
  (String.length a <= n)%nat -> string_take n a = a.
Proof.
  revert n. induction a as [|x a IH]; intros n H; [by destruct n |].
  destruct n; cbn in H; [lia |]. cbn. rewrite IH; [done | lia].
Qed.

Lemma string_take_length n (a : string) :
  (String.length (string_take n a) <= String.length a)%nat.
Proof.
  revert n. induction a as [|x a IH]; intros n; [by destruct n |].
  destruct n; cbn; [lia |]. specialize (IH n). lia.
Qed.

Lemma kept_app r (a b : string) :
  kept r (a +:+ b) = kept r a +:+ kept (room_after r (kept r a)) b.
Proof. destruct r as [n|]; [apply string_take_app | done]. Qed.

Lemma kept_all r (a : string) : takes r a -> kept r a = a.
Proof. destruct r as [n|]; [apply string_take_all | done]. Qed.

Lemma kept_length r (a : string) :
  (String.length (kept r a) <= String.length a)%nat.
Proof. destruct r as [n|]; [apply string_take_length | done]. Qed.

Lemma kept_full (a : string) : kept (Some O) a = "".
Proof. by destruct a. Qed.

(** ** Equations of the logger on a machine *)

Lemma wxGtkDebugLog_dev_unfold c :
  wxGtkDebugLog_dev c =
  (defined ← lift static_GDK_DEBUG_defined;
   if negb defined then mret false else log_record_dev c).
Proof. reflexivity. Qed.

Ltac machine_fields :=
  cbv [lift fopen_dev fclose_dev mret MD_ret mworld room buffer
       clock_gettime_REALTIME emit set_files log_content
       environ files denied realtime GDK_DEBUG_defined trace].

Lemma log_record_dev_denied c w r b :
  logpath ∈ denied w ->
  log_record_dev c (Machine w r b) =
  Some (false,
        Machine (World (environ w) (files w) (denied w) (realtime w)
                       (GDK_DEBUG_defined w)
                       (trace w ++ [EvFopen logpath "a" false; EvClockGettime]))
                r b).
Proof.
  intros Hd. unfold log_record_dev, mbind, MD_bind, fopen_dev.
  cbn [mworld]. rewrite fopen_a_denied by done.
  destruct w as [e f d t s tr]. machine_fields.
  by rewrite <- !(assoc_L (++)).
Qed.

Lemma log_record_dev_opened c w r b msg :
  logpath ∉ denied w ->
  vformat (format c) (va c) = Some msg ->
  log_record_dev c (Machine w r b) =
  Some (true,
        Machine
          (World (environ w)
                 (<[logpath := log_content w +:+
                               kept r (prefix_text (realtime w) c +:+ msg)]>
                    (files w))
                 (denied w) (realtime w) (GDK_DEBUG_defined w)
                 (trace w ++ [EvFopen logpath "a" true; EvClockGettime;
                              EvWrite logpath (prefix_text (realtime w) c);
                              EvWrite logpath msg; EvFclose logpath]))
          (room_after r (kept r (prefix_text (realtime w) c +:+ msg)))
          "").
Proof.
  intros Hd Hm. unfold log_record_dev, mbind, MD_bind, fopen_dev.
  cbn [mworld]. rewrite fopen_a_ok by done.
  destruct w as [e f d t s tr]. machine_fields.
  unfold fprintf_dev, vfprintf_dev. rewrite vformat_prefix, Hm. machine_fields.
  rewrite !lookup_insert_eq, !insert_insert_eq.
  unfold default; cbn [from_option]; unfold id.
  rewrite app_string_nil_l, <- !(assoc_L (++)). reflexivity.
Qed.

Lemma log_record_dev_undefined c w r b :
  logpath ∉ denied w ->
  vformat (format c) (va c) = None ->
  log_record_dev c (Machine w r b) = None.
Proof.
  intros Hd Hm. unfold log_record_dev, mbind, MD_bind, fopen_dev.
  cbn [mworld]. rewrite fopen_a_ok by done.
  destruct w as [e f d t s tr]. machine_fields.
  unfold fprintf_dev, vfprintf_dev. rewrite vformat_prefix, Hm. reflexivity.
Qed.

Lemma wxGtkDebugLog_dev_enabled c w r b :
  enabled w ->
  wxGtkDebugLog_dev c (Machine w r b) = log_record_dev c (Machine (first_use w) r b).
Proof.
  intros H. rewrite wxGtkDebugLog_dev_unfold. unfold mbind, MD_bind, lift.
  cbn [mworld room buffer]. by rewrite static_enabled.
Qed.

Lemma wxGtkDebugLog_dev_disabled c w r b :
  ~ enabled w ->
  wxGtkDebugLog_dev c (Machine w r b) = Some (false, Machine (first_use w) r b).
Proof.
  intros H. rewrite wxGtkDebugLog_dev_unfold. unfold mbind, MD_bind, lift.
  cbn [mworld room buffer]. by rewrite static_disabled.
Qed.

(** On a device without limit the machine does what the world alone does:
    the two embeddings of the first version agree. *)
Lemma wxGtkDebugLog_dev_free c w b :
  (fun rs => (rs.1, mworld rs.2)) <$> wxGtkDebugLog_dev c (Machine w None b)
  = wxGtkDebugLog c w.
Proof.
  destruct (enabled_dec w) as [He|He].
  - rewrite wxGtkDebugLog_dev_enabled, wxGtkDebugLog_enabled by done.
    destruct (decide (logpath ∈ denied (first_use w))).
    + by rewrite log_record_dev_denied, log_record_denied.
    + destruct (vformat (format c) (va c)) as [msg|] eqn:Hm.
      * by rewrite (log_record_dev_opened _ _ _ _ msg),
                   (log_record_opened _ _ msg).
      * by rewrite log_record_dev_undefined, log_record_undefined.
  - by rewrite wxGtkDebugLog_dev_disabled, wxGtkDebugLog_disabled.
Qed.

(** ** One call on a machine *)

Lemma handed_app (l k : list event) : handed (l ++ k) = handed l +:+ handed k.
Proof.
  induction l as [|e l IH]; [done |].
  destruct e; cbn [handed app]; try done.
  by rewrite IH, app_string_assoc.
Qed.

Lemma room_after_nil r : room_after r "" = r.
Proof. destruct r as [n|]; [| done]. cbn. f_equal. lia. Qed.

Lemma room_after_app r (a b : string) :
  room_after (room_after r a) b = room_after r (a +:+ b).
Proof.
  destruct r as [n|]; [| done]. cbn. rewrite app_string_length. f_equal. lia.
Qed.

Lemma kept_nil r : kept r "" = "".
Proof. by destruct r as [[|n]|]. Qed.

Lemma kept_pos r (a : string) :
  r <> Some O -> (0 < String.length a)%nat ->
  (0 < String.length (kept r a))%nat.
Proof.
  destruct r as [[|n]|]; [done | | done]; intros _ H.
  destruct a; cbn in *; lia.
Qed.

Lemma first_use_trace w :
  exists pre, trace (first_use w) = trace w ++ pre /\ handed pre = "".
Proof.
  unfold first_use. destruct (GDK_DEBUG_defined w).
  - exists []. by rewrite app_nil_r.
  - by eexists.
Qed.

(** The same whenever the device has room for the bytes the call hands to
    the stream: what is proved of the world alone then holds of the
    machine. *)
Lemma wxGtkDebugLog_dev_room c w r b res s' :
  wxGtkDebugLog_dev c (Machine w r b) = Some (res, s') ->
  takes r (handed (new_events w (mworld s'))) ->
  wxGtkDebugLog c w = Some (res, mworld s').
Proof.
  assert (Hpre : exists pre, trace (first_use w) = trace w ++ pre /\ handed pre = "").
  { unfold first_use. destruct (GDK_DEBUG_defined w).
    - exists []. by rewrite app_nil_r.
    - by eexists. }
  destruct Hpre as (pre & Hpre & Hh).
  destruct (enabled_dec w) as [He|He].
  - rewrite wxGtkDebugLog_dev_enabled, wxGtkDebugLog_enabled by done.
    destruct (decide (logpath ∈ denied (first_use w))).
    + rewrite log_record_dev_denied, log_record_denied by done.
      by intros [= <- <-].
    + destruct (vformat (format c) (va c)) as [msg|] eqn:Hm.
      * rewrite (log_record_dev_opened _ _ _ _ msg),
                (log_record_opened _ _ msg) by done.
        intros [= <- <-]. cbn [mworld].
        erewrite new_events_app
          by (cbn [trace]; rewrite Hpre, <- (assoc_L (++)); reflexivity).
        rewrite handed_app, Hh. cbn [handed].
        rewrite app_string_nil_l, app_string_nil_r.
        intros Ht. by rewrite kept_all.
      * by rewrite log_record_dev_undefined.
  - rewrite wxGtkDebugLog_dev_disabled, wxGtkDebugLog_disabled by done.
    by intros [= <- <-].
Qed.

(** What a call does to a machine: the bytes it hands to the stream are
    appended to the log file as far as the device takes them. *)
Lemma dev_call c w r b :
  is_Some (vformat (format c) (va c)) ->
  exists (res : bool) (w' : world) (evs : list event),
    wxGtkDebugLog_dev c (Machine w r b)
      = Some (res, Machine w' (room_after r (kept r (handed evs)))
                           (if res then "" else b)) /\
    trace w' = trace w ++ evs /\
    log_content w' = log_content w +:+ kept r (handed evs) /\
    (is_Some (files w !! logpath) -> is_Some (files w' !! logpath)) /\
    (if res then (0 < String.length (handed evs))%nat else handed evs = "").
Proof.
  intros [msg Hmsg].
  destruct (first_use_fields w) as (_ & Hf & Hd & Ht).
  destruct (first_use_trace w) as (pre & Hpre & Hh).
  assert (Hc : log_content (first_use w) = log_content w)
    by (unfold log_content; by rewrite Hf).
  destruct (enabled_dec w) as [He|He].
  - rewrite wxGtkDebugLog_dev_enabled by done.
    destruct (decide (logpath ∈ denied (first_use w))).
    + rewrite log_record_dev_denied by done.
      exists false; eexists;
        exists (pre ++ [EvFopen logpath "a" false; EvClockGettime]).
      rewrite handed_app, Hh. cbn [handed]. rewrite app_string_nil_l.
      rewrite kept_nil, room_after_nil, app_string_nil_r.
      split; [done |]. cbn [trace]. rewrite Hpre, <- (assoc_L (++)).
      split; [done |]. unfold log_content at 1. cbn [files]. rewrite Hf.
      by fold (log_content w).
    + rewrite (log_record_dev_opened _ _ _ _ msg) by done.
      exists true; eexists;
        exists (pre ++ [EvFopen logpath "a" true; EvClockGettime;
                        EvWrite logpath (prefix_text (realtime (first_use w)) c);
                        EvWrite logpath msg; EvFclose logpath]).
      rewrite handed_app, Hh. cbn [handed].
      rewrite app_string_nil_l, app_string_nil_r.
      split; [done |]. cbn [trace]. rewrite Hpre, <- (assoc_L (++)).
      split; [done |]. unfold log_content at 1. cbn [files].
      rewrite lookup_insert_eq. cbn [default from_option id]. rewrite Hc.
      split; [done |]. split; [by eauto |].
      rewrite app_string_length.
      pose proof (prefix_text_length (realtime (first_use w)) c). lia.
  - rewrite wxGtkDebugLog_dev_disabled by done.
    exists false; eexists; exists pre.
    rewrite Hh, kept_nil, room_after_nil, app_string_nil_r, Hc, Hf.
    by rewrite Hpre.
Qed.

(** ** The scenario of the specification on a machine (C1) *)

(** C1 (amended): every enabled call of the scenario whose open succeeds
    returns [true] and hands to the stream exactly the bytes
    [PreciseTime:<sec>,<nsec>. worker.c:42:DoWork--->value=7], the time being
    the clock reading of the call, with no blank after the arrow and no line
    terminator.  The results of the writes and of the close are discarded:
    the log file receives these bytes after its old contents as far as the
    device takes them, all of them when it has room for them. *)
Theorem scenario_on_device s :
  enabled (mworld s) -> logpath ∉ denied (mworld s) ->
  exists s',
    wxGtkDebugLog_dev scenario s = Some (true, s') /\
    handed (new_events (mworld s) (mworld s'))
      = scenario_text (realtime (mworld s)) /\
    log_content (mworld s') =
      log_content (mworld s) +:+
      kept (room s) (scenario_text (realtime (mworld s))) /\
    (takes (room s) (scenario_text (realtime (mworld s))) ->
     log_content (mworld s') =
       log_content (mworld s) +:+ scenario_text (realtime (mworld s))).
Proof.
  destruct s as [w r b]. cbn [mworld room]. intros He Hd.
  destruct (first_use_fields w) as (_ & Hf & Hden & Ht).
  destruct (first_use_trace w) as (pre & Hpre & Hh).
  rewrite wxGtkDebugLog_dev_enabled by done.
  rewrite (log_record_dev_opened _ _ _ _ "value=7");
    [| by rewrite Hden | reflexivity].
  eexists. split; [reflexivity |]. cbn [mworld].
  assert (Htext : prefix_text (realtime (first_use w)) scenario +:+ "value=7"
                  = scenario_text (realtime w)).
  { rewrite Ht. unfold prefix_text, scenario_text.
    rewrite !app_string_assoc. reflexivity. }
  split.
  - erewrite new_events_app
      by (cbn [trace]; rewrite Hpre, <- (assoc_L (++)); reflexivity).
    rewrite handed_app, Hh. cbn [handed].
    by rewrite app_string_nil_l, app_string_nil_r.
  - rewrite Htext.
    match goal with
    | |- log_content ?W = _ /\ _ =>
      assert (Hcont : log_content W =
                      log_content w +:+ kept r (scenario_text (realtime w)))
    end.
    { unfold log_content. cbn [files]. by rewrite lookup_insert_eq, Hf. }
    rewrite Hcont. split; [done |]. intros Hroom. by rewrite kept_all.
Qed.

Lemma scenario_on_device_witness :
  exists s',
    wxGtkDebugLog_dev scenario m_tight = Some (true, s') /\
    handed (new_events (mworld m_tight) (mworld s'))
      = scenario_text (realtime (mworld m_tight)) /\
    log_content (mworld s') =
      log_content (mworld m_tight) +:+
      kept (room m_tight) (scenario_text (realtime (mworld m_tight))) /\
    (takes (room m_tight) (scenario_text (realtime (mworld m_tight))) ->
     log_content (mworld s') =
       log_content (mworld m_tight) +:+
       scenario_text (realtime (mworld m_tight))).
Proof.
  apply (scenario_on_device m_tight); [by eexists | set_solver].
Defined.

(** Room for twenty bytes: the call returns [true] and the file receives the
    first twenty bytes of the record. *)
Example scenario_on_tight_device :
  (fun rs => (rs.1, log_content (mworld rs.2))) <$>
    wxGtkDebugLog_dev scenario m_tight
  = Some (true, "earlier lines" +:+ "PreciseTime:100,5. w").
Proof. vm_compute. reflexivity. Qed.

Example scenario_on_free_device :
  (fun rs => (rs.1, log_content (mworld rs.2))) <$>
    wxGtkDebugLog_dev scenario m_free
  = Some (true, "earlier lines" +:+
                "PreciseTime:100,5. worker.c:42:DoWork--->value=7").
Proof. vm_compute. reflexivity. Qed.

(** ** Appending on a machine (C5) *)

(** C5, as stated, fails: a call that succeeds need not append a record.
    On a device that is full the call of the scenario hands its record to the
    stream and returns [true], and the log file is what it was before. *)
Lemma append_refused_counterexample :
  exists s',
    enabled (mworld m_full) /\ (logpath ∉ denied (mworld m_full)) /\
    wxGtkDebugLog_dev scenario m_full = Some (true, s') /\
    handed (new_events (mworld m_full) (mworld s'))
      = "PreciseTime:100,5. worker.c:42:DoWork--->value=7" /\
    log_content (mworld m_full) = "earlier lines" /\
    log_content (mworld s') = "earlier lines".
Proof.
  eexists. split; [by eexists |]. split; [set_solver |].
  split; [vm_compute; reflexivity |]. by vm_compute.
Qed.

Lemma run_dev_call c rest s :
  run_dev (ACall c :: rest) s =
  match wxGtkDebugLog_dev c s with
  | Some (r, s1) =>
    match run_dev rest s1 with
    | Some (rs, s2) => Some (r :: rs, s2)
    | None => None
    end
  | None => None
  end.
Proof.
  cbn [run_dev]. unfold mbind, MD_bind, mret, MD_ret.
  destruct (wxGtkDebugLog_dev c s) as [[r s1]|]; [| done].
  by destruct (run_dev rest s1) as [[rs s2]|].
Qed.

Lemma run_dev_outside a rest s :
  match a with ACall _ => False | _ => True end ->
  run_dev (a :: rest) s =
  run_dev rest (Machine (outside a (mworld s)) (room s) (buffer s)).
Proof. by destruct a. Qed.

Lemma run_dev_appends acts : forall w r b,
  Forall meaningful acts ->
  exists rs w' b' evs,
    run_dev acts (Machine w r b)
      = Some (rs, Machine w' (room_after r (kept r (handed evs))) b') /\
    length rs = calls acts /\
    trace w' = trace w ++ evs /\
    log_content w' = log_content w +:+ kept r (handed evs) /\
    (is_Some (files w !! logpath) -> is_Some (files w' !! logpath)) /\
    (true ∈ rs -> (0 < String.length (handed evs))%nat).
Proof.
  induction acts as [|a acts IH]; intros w r b Hm.
  - exists [], w, b, []. cbn [handed]. rewrite kept_nil, room_after_nil.
    rewrite app_string_nil_r, app_nil_r.
    repeat split; try done. by intros ?%elem_of_nil.
  - apply Forall_cons in Hm as [Ha Hm].
    destruct (outside_keeps a w) as (Hf0 & _ & Ht0).
    destruct a as [c| | | | |].
    1:{ destruct (dev_call c w r b Ha)
          as (res & w1 & e1 & Hc & Ht1 & Hs1 & Hx1 & Hr1).
        destruct (IH w1 (room_after r (kept r (handed e1)))
                     (if res then "" else b) Hm)
          as (rs & w2 & b2 & e2 & Hrun & Hlen & Ht2 & Hs2 & Hx2 & Hgrow).
        exists (res :: rs), w2, b2, (e1 ++ e2).
        rewrite run_dev_call, Hc, Hrun.
        rewrite handed_app, kept_app, <- room_after_app.
        split; [done |]. split; [cbn [calls length]; by rewrite Hlen |].
        split; [by rewrite Ht2, Ht1, (assoc_L (++)) |].
        split; [by rewrite Hs2, Hs1, app_string_assoc |].
        split; [by auto |].
        rewrite app_string_length.
        intros [<-|Hin]%elem_of_cons; [lia |]. specialize (Hgrow Hin). lia. }
    all: rewrite run_dev_outside by done; cbn [mworld room buffer];
      lazymatch goal with
      | |- context [run_dev _ (Machine (outside ?a _) _ _)] =>
        destruct (IH (outside a w) r b Hm)
          as (rs & w2 & b2 & e2 & Hrun & Hlen & Ht2 & Hs2 & Hx2 & Hgrow);
        exists rs, w2, b2, e2; rewrite Hrun
      end.
    all: unfold log_content in *; rewrite Hf0, Ht0 in *; cbn [calls]; done.
Qed.

(** C5 (amended): the log file is only ever appended to.  For a run of any
    length in which every call meets the precondition of the logger, all
    calls return; what the run adds to the log file comes after the contents
    the file had before, which stay as they were, and is what the device
    takes of the bytes the calls handed to the stream, in their order; so the
    size of the file does not decrease and the file is not removed.  Every
    call that returned [true] handed a record to the stream; the file has
    grown by it, or by a beginning of it, unless the device was full. *)
Theorem append_only_on_device acts s :
  Forall meaningful acts ->
  exists rs s',
    run_dev acts s = Some (rs, s') /\
    length rs = calls acts /\
    log_content (mworld s') =
      log_content (mworld s) +:+
      kept (room s) (handed (new_events (mworld s) (mworld s'))) /\
    (String.length (log_content (mworld s))
     <= String.length (log_content (mworld s')))%nat /\
    (is_Some (files (mworld s) !! logpath) ->
     is_Some (files (mworld s') !! logpath)) /\
    (true ∈ rs ->
     (0 < String.length (handed (new_events (mworld s) (mworld s'))))%nat) /\
    (true ∈ rs -> room s <> Some O ->
     (String.length (log_content (mworld s))
      < String.length (log_content (mworld s')))%nat).
Proof.
  destruct s as [w r b]. intros Hm.
  destruct (run_dev_appends acts w r b Hm)
    as (rs & w' & b' & evs & Hrun & Hlen & Ht & Hs & Hx & Hgrow).
  exists rs; eexists. split; [exact Hrun |]. cbn [mworld room].
  rewrite (new_events_app _ _ _ Ht), Hs, app_string_length.
  split; [done |]. split; [done |]. split; [lia |]. split; [done |].
  split; [done |]. intros Hin Hr.
  pose proof (kept_pos r (handed evs) Hr (Hgrow Hin)). lia.
Qed.

Lemma append_only_on_device_witness :
  exists rs s',
    run_dev [ACall scenario; AClock (Timespec 100 7); ACall scenario] m_tight
      = Some (rs, s') /\
    length rs = 2%nat /\
    log_content (mworld s') =
      "earlier lines" +:+
      kept (Some 20%nat) (handed (new_events (mworld m_tight) (mworld s'))) /\
    (String.length (log_content (mworld m_tight))
     <= String.length (log_content (mworld s')))%nat /\
    (is_Some (files (mworld m_tight) !! logpath) ->
     is_Some (files (mworld s') !! logpath)) /\
    (true ∈ rs ->
     (0 < String.length (handed (new_events (mworld m_tight) (mworld s'))))%nat) /\
    (true ∈ rs -> room m_tight <> Some O ->
     (String.length (log_content (mworld m_tight))
      < String.length (log_content (mworld s')))%nat).
Proof.
  apply (append_only_on_device
           [ACall scenario; AClock (Timespec 100 7); ACall scenario] m_tight).
  repeat constructor; by eexists.
Defined.

(** ** Records, one after the other, on a machine *)

Lemma dev_enabled_call_opened c w r b :
  enabled w -> logpath ∉ denied w ->
  is_Some (vformat (format c) (va c)) ->
  exists w',
    wxGtkDebugLog_dev c (Machine w r b)
      = Some (true,
              Machine w' (room_after r (kept r (record_text (realtime w) c))) "") /\
    enabled w' /\ denied w' = denied w /\
    log_content w' = log_content w +:+ kept r (record_text (realtime w) c).
Proof.
  intros He Hd [msg Hm].
  destruct (first_use_fields w) as (_ & Hf & Hden & Ht).
  rewrite wxGtkDebugLog_dev_enabled by done.
  rewrite (log_record_dev_opened _ _ _ _ msg) by (by rewrite ?Hden).
  unfold record_text, message. rewrite Hm, Ht. cbn [default from_option id].
  eexists. split; [done |]. split.
  - unfold enabled. cbn [GDK_DEBUG_defined]. rewrite first_use_static.
    unfold enabled in He. destruct (GDK_DEBUG_defined w); [done |].
    by rewrite bool_decide_eq_true_2.
  - split; [done |]. unfold log_content. cbn [files].
    by rewrite lookup_insert_eq, Hf.
Qed.

(** X6: records follow one another in the order of the calls, with nothing
    between them.  When logging is enabled, the log file can be opened and
    every call meets the precondition, a sequence of calls, each made at its
    own clock reading, all return [true], and the log file receives, after
    its old contents, what the device takes of their records: for each call
    the fixed fields with the clock reading of that call and then its
    message.  With room for all of them the file ends in exactly these
    records. *)
Theorem records_on_device l : forall s,
  enabled (mworld s) -> logpath ∉ denied (mworld s) ->
  Forall (fun tc => is_Some (vformat (format tc.2) (va tc.2))) l ->
  exists s',
    run_dev (timed_calls l) s = Some (replicate (length l) true, s') /\
    room s' = room_after (room s) (kept (room s) (records l)) /\
    log_content (mworld s') =
      log_content (mworld s) +:+ kept (room s) (records l) /\
    (takes (room s) (records l) ->
     log_content (mworld s') = log_content (mworld s) +:+ records l).
Proof.
  assert (H : forall s,
             enabled (mworld s) -> logpath ∉ denied (mworld s) ->
             Forall (fun tc => is_Some (vformat (format tc.2) (va tc.2))) l ->
             exists s',
               run_dev (timed_calls l) s = Some (replicate (length l) true, s') /\
               room s' = room_after (room s) (kept (room s) (records l)) /\
               log_content (mworld s') =
                 log_content (mworld s) +:+ kept (room s) (records l)).
  { induction l as [|[t c] l IH]; intros [w r b]; cbn [mworld room];
      intros He Hd Hm.
    - eexists. split; [reflexivity |]. cbn [records mworld room].
      by rewrite kept_nil, room_after_nil, app_string_nil_r.
    - apply Forall_cons in Hm as [Hc Hm]. cbn [timed_calls].
      rewrite run_dev_outside by done. rewrite run_dev_call.
      cbn [mworld room buffer].
      destruct (dev_enabled_call_opened c (outside (AClock t) w) r b)
        as (w1 & Hcall & He1 & Hd1 & Hc1);
        [by destruct w | by destruct w | done |].
      rewrite Hcall.
      match goal with
      | |- context [run_dev _ ?s1] =>
        destruct (IH s1 He1) as (s2 & Hrun & Hr2 & Hc2);
          [by cbn; rewrite Hd1; destruct w | done |]
      end.
      rewrite Hrun. exists s2. split; [done |].
      cbn [mworld room] in Hr2, Hc2. cbn [records].
      rewrite kept_app, <- room_after_app.
      replace (realtime (outside (AClock t) w)) with t in * by (by destruct w).
      split; [done |]. rewrite Hc2, Hc1, app_string_assoc. by destruct w. }
  intros s He Hd Hm. destruct (H s He Hd Hm) as (s' & Hrun & Hr & Hc).
  exists s'. do 3 (split; [done |]). intros Ht. by rewrite Hc, kept_all.
Qed.

Lemma records_on_device_witness :
  exists s',
    run_dev (timed_calls [(Timespec 100 6, scenario); (Timespec 101 0, pair_call)])
            m_free = Some ([true; true], s') /\
    room s' = None /\
    log_content (mworld s') =
      "earlier lines" +:+
      kept None (records [(Timespec 100 6, scenario); (Timespec 101 0, pair_call)]) /\
    (takes (room m_free)
           (records [(Timespec 100 6, scenario); (Timespec 101 0, pair_call)]) ->
     log_content (mworld s') =
       log_content (mworld m_free) +:+
       records [(Timespec 100 6, scenario); (Timespec 101 0, pair_call)]).
Proof.
  apply (records_on_device
           [(Timespec 100 6, scenario); (Timespec 101 0, pair_call)] m_free).
  - by eexists.
  - set_solver.
  - repeat constructor; by eexists.
Defined.

Example records_on_free_device :
  (fun rs => log_content (mworld rs.2)) <$>
    run_dev (timed_calls [(Timespec 100 6, scenario); (Timespec 101 0, pair_call)])
            m_free
  = Some ("earlier lines" +:+
          "PreciseTime:100,6. worker.c:42:DoWork--->value=7" +:+
          "PreciseTime:101,0. worker.c:42:DoWork--->value=7").
Proof. vm_compute. reflexivity. Qed.

(** * Further properties: calls that write nothing, and the second version *)

(** X2: a call that writes nothing never looks at the caller's format.  When
    logging is disabled, or the log file cannot be opened, the call returns
    [false] and leaves the same state for every format and every argument
    list, those that [vfprintf] has no meaning for included. *)
Theorem format_unused_when_silent w :
  ~ enabled w \/ logpath ∈ denied w ->
  forall c c',
    wxGtkDebugLog c w = wxGtkDebugLog c' w /\
    exists w', wxGtkDebugLog c w = Some (false, w').
Proof.
  intros H c c'. destruct (first_use_fields w) as (_ & _ & Hd & _).
  destruct (enabled_dec w) as [He|He].
  - destruct H as [H|H]; [done |]. rewrite <- Hd in H.
    rewrite !wxGtkDebugLog_enabled, !log_record_denied by done.
    split; [done | by eexists].
  - rewrite !wxGtkDebugLog_disabled by done. split; [done | by eexists].
Qed.

Lemma format_unused_when_silent_witness :
  wxGtkDebugLog scenario w_readonly
    = wxGtkDebugLog (Call "%d %d" "f" 1 "x.c" []) w_readonly /\
  exists w', wxGtkDebugLog scenario w_readonly = Some (false, w').
Proof.
  apply (format_unused_when_silent w_readonly). right. set_solver.
Defined.

(** ** The bytes the two versions hand to the stream *)

Lemma handed_first c w w1 :
  wxGtkDebugLog c w = Some (true, w1) ->
  exists m1,
    vformat (format c) (va c) = Some m1 /\
    handed (new_events w w1) = prefix_text (realtime w) c +:+ m1.
Proof.
  destruct (first_use_fields w) as (_ & _ & _ & Ht).
  destruct (first_use_trace w) as (pre & Hpre & Hh).
  call_cases c w; try done. intros [= <-]. exists msg. split; [done |].
  erewrite new_events_app
    by (cbn [trace]; rewrite Hpre, <- (assoc_L (++)); reflexivity).
  rewrite handed_app, Hh, Ht. cbn [handed].
  by rewrite app_string_nil_l, app_string_nil_r.
Qed.

Lemma handed_second c w w2 :
  wxGtkDebugLog_v2 c w = Some (true, w2) ->
  exists m2,
    message_v2 c = Some m2 /\
    handed (new_events w w2) = time_text (realtime w) +:+ m2.
Proof.
  destruct (first_use_fields w) as (_ & _ & _ & Ht).
  destruct (first_use_trace w) as (pre & Hpre & Hh).
  destruct (enabled_dec w) as [He|He].
  2:{ by rewrite wxGtkDebugLog_v2_disabled. }
  rewrite wxGtkDebugLog_v2_enabled by done.
  destruct (decide (logpath ∈ denied (first_use w))) as [Hden|Hden].
  { by rewrite log_record_v2_denied_eq, log_record_denied. }
  destruct (message_v2 c) as [m2|] eqn:Hm2.
  2:{ by rewrite log_record_v2_undefined. }
  rewrite (log_record_v2_opened _ _ m2) by done.
  intros [= <-]. exists m2. split; [done |].
  erewrite new_events_app
    by (cbn [trace]; rewrite Hpre, <- (assoc_L (++)); reflexivity).
  rewrite handed_app, Hh, Ht. cbn [handed].
  by rewrite app_string_nil_l, app_string_nil_r.
Qed.

(** X9: for a format built from [%d], [%ld], [%s] and [%%] alone, whenever
    both versions return [true] on the same call in the same world, the
    second version hands fewer bytes to the stream than the first, fewer by
    the punctuation of the source position at least; so the two never hand
    over the same record. *)
Theorem second_version_hands_less c w w1 w2 l :
  conversions (format c) = Some l ->
  wxGtkDebugLog c w = Some (true, w1) ->
  wxGtkDebugLog_v2 c w = Some (true, w2) ->
  (String.length (handed (new_events w w2)) + 6
   <= String.length (handed (new_events w w1)))%nat /\
  handed (new_events w w1) <> handed (new_events w w2).
Proof.
  intros _ (m1 & Hm1 & H1)%handed_first (m2 & Hm2 & H2)%handed_second.
  pose proof (vformat_lengths _ _ _ _ _ _ (le_n _) Hm1 Hm2) as Hl.
  cbn [args_length arg_length] in Hl.
  assert (Hlt : (String.length (handed (new_events w w2)) + 6
                 <= String.length (handed (new_events w w1)))%nat).
  { rewrite H1, H2, !app_string_length, prefix_text_time. lia. }
  split; [done |]. intros E. rewrite E in Hlt. lia.
Qed.

Lemma second_version_hands_less_witness :
  (String.length (handed (new_events w_demo w_pair_v2)) + 6
   <= String.length (handed (new_events w_demo w_pair_v1)))%nat /\
  handed (new_events w_demo w_pair_v1) <> handed (new_events w_demo w_pair_v2).
Proof.
  apply (second_version_hands_less pair_call w_demo w_pair_v1 w_pair_v2
                                   [ConvStr; ConvInt]);
    vm_compute; reflexivity.
Defined.

(** X10: the two versions do the same on every call that writes nothing.
    When logging is disabled, or the log file cannot be opened, both return
    [false] and leave the same state, whatever the format and the arguments
    are. *)
Theorem versions_agree_when_silent c w :
  ~ enabled w \/ logpath ∈ denied w ->
  wxGtkDebugLog c w = wxGtkDebugLog_v2 c w /\
  exists w', wxGtkDebugLog_v2 c w = Some (false, w').
Proof.
  intros H. destruct (first_use_fields w) as (_ & _ & Hd & _).
  destruct (enabled_dec w) as [He|He].
  - destruct H as [H|H]; [done |]. rewrite <- Hd in H.
    rewrite wxGtkDebugLog_enabled, wxGtkDebugLog_v2_enabled by done.
    rewrite log_record_v2_denied_eq, log_record_denied by done.
    split; [done | by eexists].
  - rewrite wxGtkDebugLog_disabled, wxGtkDebugLog_v2_disabled by done.
    split; [done | by eexists].
Qed.

Lemma versions_agree_when_silent_witness :
  wxGtkDebugLog scenario w_unset = wxGtkDebugLog_v2 scenario w_unset /\
  exists w', wxGtkDebugLog_v2 scenario w_unset = Some (false, w').
Proof.
  apply (versions_agree_when_silent scenario w_unset).
  left. unfold enabled. cbn. by intros [? ?].
Defined.

(** X12: the formats of the fragment that the second version can take.  For
    a format built from [%d], [%ld], [%s] and [%%] alone, on an enabled call
    whose open succeeds, the call of [fprintf] with the source file, the line
    number, the function name and the [va_list] object has a meaning exactly
    when the conversions of the format are, in order, a beginning of [%s],
    [%d], [%s]; with any other sequence a conversion meets an argument of
    another type. *)
Theorem second_version_formats c w l :
  enabled w -> logpath ∉ denied w ->
  conversions (format c) = Some l ->
  (is_Some (wxGtkDebugLog_v2 c w) <-> l `prefix_of` [ConvStr; ConvInt; ConvStr]).
Proof.
  intros He Hd Hl. destruct (first_use_fields w) as (_ & _ & Hden & _).
  rewrite wxGtkDebugLog_v2_enabled by done.
  assert (Hs : is_Some (message_v2 c) <->
               l `prefix_of` [ConvStr; ConvInt; ConvStr]).
  { unfold message_v2. rewrite (vformat_defined _ _ _ (le_n _)). unfold suits.
    rewrite Hl. apply args_suit_v2. }
  rewrite <- Hs.
  destruct (message_v2 c) as [m2|] eqn:Hm2.
  - rewrite (log_record_v2_opened _ _ m2) by (by rewrite ?Hden).
    split; by eauto.
  - rewrite log_record_v2_undefined by (by rewrite ?Hden).
    split; by intros [? ?].
Qed.

Lemma second_version_formats_witness :
  is_Some (wxGtkDebugLog_v2 pair_call w_demo) <->
  [ConvStr; ConvInt] `prefix_of` [ConvStr; ConvInt; ConvStr].
Proof.
  apply (second_version_formats pair_call w_demo [ConvStr; ConvInt]);
    [by eexists | set_solver | reflexivity].
Defined.

(** ** Refused bytes go unnoticed *)

(** X13: the function does not notice bytes the device refuses.  Whatever
    room the device has, a call returns the same value, makes the same
    library calls with the same bytes handed to the stream, and leaves the
    static, the environment and every other file alike; the room shows in
    the contents of the log file alone. *)
Theorem refused_bytes_unnoticed c w r b r' b' :
  (fun rs => (rs.1, trace (mworld rs.2), GDK_DEBUG_defined (mworld rs.2),
              environ (mworld rs.2), delete logpath (files (mworld rs.2))))
    <$> wxGtkDebugLog_dev c (Machine w r b)
  = (fun rs => (rs.1, trace (mworld rs.2), GDK_DEBUG_defined (mworld rs.2),
                environ (mworld rs.2), delete logpath (files (mworld rs.2))))
    <$> wxGtkDebugLog_dev c (Machine w r' b').
Proof.
  destruct (enabled_dec w) as [He|He].
  - rewrite !wxGtkDebugLog_dev_enabled by done.
    destruct (decide (logpath ∈ denied (first_use w))).
    + by rewrite !log_record_dev_denied.
    + destruct (vformat (format c) (va c)) as [msg|] eqn:Hm.
      * rewrite !(log_record_dev_opened _ _ _ _ msg) by done.
        cbn. by rewrite !delete_insert_eq.
      * by rewrite !log_record_dev_undefined.
  - by rewrite !wxGtkDebugLog_dev_disabled.
Qed.
